(** * rack: a verification development for the multi-repository git helper.

    The development embeds [rack/__init__.py], [rack/output.py] and
    [rack/config.py] and proves properties of the status parser, the diff
    parser, the repository enumeration and the command dispatcher.

    Conventions of the embedding.
    - Text is a [string] whose characters are code points below 256; the
      decoding of a subprocess' bytes ([stdout.decode("utf-8")]) is taken as
      done, so a [CompletedProcess] carries its decoded text.
    - A Python exception is a value of [exn]; a computation that may raise
      returns a [result].
    - [print], the logger, [os.chdir] and [subprocess.run] are effects on an
      explicit [state]: the console, the current directory, the verbosity of
      the process-wide logger and the three [lru_cache] tables.
    - The file system, the environment and git itself are a read-only
      [world]; git is installed, so [subprocess.run] returns, and a
      configuration file, when there is one, can be read and is an empty
      document or a mapping from keys to lists of names.
    - A path is the name it was built from: [os.chdir] keeps the joined
      name as the current directory, where the operating system would
      normalize it (["/wd/"] and ["/wd"] name the same directory). *)

From Stdlib Require Import String Ascii List ZArith Bool Lia.
Import ListNotations.
Local Open Scope string_scope.
Local Open Scope Z_scope.

(* ===================================================================== *)
(** ** Python's string methods used by the program *)
(* ===================================================================== *)

Module Str.

Definition code (c : ascii) : Z := Z.of_N (N_of_ascii c).

(** [str.isspace] on one character (code points below 256). *)
Definition isspace (c : ascii) : bool :=
  let n := code c in
  ((9 <=? n) && (n <=? 13)) || ((28 <=? n) && (n <=? 32))
  || (n =? 133) || (n =? 160).

(** The line boundaries of [str.splitlines] other than the pair CR LF. *)
Definition islinebreak (c : ascii) : bool :=
  let n := code c in
  ((10 <=? n) && (n <=? 13)) || ((28 <=? n) && (n <=? 30)) || (n =? 133).

Definition isempty (s : string) : bool :=
  match s with EmptyString => true | String _ _ => false end.

Fixpoint lstrip (s : string) : string :=
  match s with
  | EmptyString => EmptyString
  | String c s' => if isspace c then lstrip s' else s
  end.

Fixpoint rstrip (s : string) : string :=
  match s with
  | EmptyString => EmptyString
  | String c s' =>
      let r := rstrip s' in
      if isspace c && isempty r then EmptyString else String c r
  end.

(** [s.strip()] *)
Definition strip (s : string) : string := rstrip (lstrip s).

(** [s.startswith(p)] *)
Fixpoint startswith (p s : string) : bool :=
  match p, s with
  | EmptyString, _ => true
  | String a p', String b s' => Ascii.eqb a b && startswith p' s'
  | String _ _, EmptyString => false
  end.

(** [s.endswith(p)] *)
Fixpoint endswith (p s : string) : bool :=
  String.eqb p s
  || match s with
     | EmptyString => false
     | String _ s' => endswith p s'
     end.

(** [c in s] for a one-character string [c]. *)
Fixpoint contains (c : ascii) (s : string) : bool :=
  match s with
  | EmptyString => false
  | String b s' => Ascii.eqb c b || contains c s'
  end.

Definition lower_char (c : ascii) : ascii :=
  let n := code c in
  if ((65 <=? n) && (n <=? 90))
     || ((192 <=? n) && (n <=? 222) && negb (n =? 215))
  then ascii_of_N (Z.to_N (n + 32)) else c.

(** [s.lower()] *)
Fixpoint lower (s : string) : string :=
  match s with
  | EmptyString => EmptyString
  | String c s' => String (lower_char c) (lower s')
  end.

(** [s.split(sep, maxsplit)] for a one-character separator; [None] is
    Python's default [maxsplit = -1] (no limit).  Empty fields are kept
    and the result always has at least one element. *)
Fixpoint split (sep : ascii) (maxsplit : option nat) (s : string)
  : list string :=
  match s with
  | EmptyString => [EmptyString]
  | String c s' =>
      let cut := match maxsplit with Some O => false | _ => true end in
      if Ascii.eqb c sep && cut then
        EmptyString
          :: split sep (match maxsplit with
                        | Some (S k) => Some k
                        | other => other
                        end) s'
      else
        match split sep maxsplit s' with
        | h :: t => String c h :: t
        | [] => [String c EmptyString]
        end
  end.

(** [s.splitlines()]: a line ends at LF, CR, CR LF, VT, FF, FS, GS, RS or
    NEL; the text after the last boundary is a line only when not empty. *)
Fixpoint splitlines (s : string) : list string :=
  match s with
  | EmptyString => []
  | String c s' =>
      if islinebreak c then
        EmptyString
          :: splitlines
               (match s' with
                | String d s'' =>
                    if (code c =? 13) && (code d =? 10) then s'' else s'
                | EmptyString => s'
                end)
      else
        match splitlines s' with
        | h :: t => String c h :: t
        | [] => [String c EmptyString]
        end
  end.

(** [sep.join(parts)] *)
Fixpoint join (sep : string) (parts : list string) : string :=
  match parts with
  | [] => EmptyString
  | [p] => p
  | p :: rest => p ++ sep ++ join sep rest
  end.

Definition digit_of (c : ascii) : option Z :=
  let n := code c in
  if (48 <=? n) && (n <=? 57) then Some (n - 48) else None.

(** The digits of an integer literal: decimal digits with single
    underscores between them.  [under] says that the previous character
    was an underscore (or that no digit was read yet); the result carries
    the value and the number of digits read. *)
Fixpoint int_digits (under : bool) (acc ndigits : Z) (s : string)
  : option (Z * Z) :=
  match s with
  | EmptyString => if under then None else Some (acc, ndigits)
  | String c s' =>
      if Ascii.eqb c "_" then
        if under then None else int_digits true acc ndigits s'
      else
        match digit_of c with
        | Some d => int_digits false (10 * acc + d) (ndigits + 1) s'
        | None => None
        end
  end.

(** [sys.get_int_max_str_digits()], at its default. *)
Definition int_max_str_digits : Z := 4300.

(** The white space [int] skips around a literal: the characters of C's
    [isspace] and, above the ASCII range, those of [str.isspace]; the
    separators U+001C to U+001F, which [str.strip] drops, are not among
    them. *)
Definition int_space (c : ascii) : bool :=
  let n := code c in
  ((9 <=? n) && (n <=? 13)) || (n =? 32) || (n =? 133) || (n =? 160).

Fixpoint int_lstrip (s : string) : string :=
  match s with
  | EmptyString => EmptyString
  | String c s' => if int_space c then int_lstrip s' else s
  end.

Fixpoint int_rstrip (s : string) : string :=
  match s with
  | EmptyString => EmptyString
  | String c s' =>
      let r := int_rstrip s' in
      if int_space c && isempty r then EmptyString else String c r
  end.

(** [int(s)] in base ten: [None] stands for [ValueError].  White space
    around the literal is dropped, one sign is allowed, and a literal of
    more than [int_max_str_digits] digits is refused. *)
Definition int (s : string) : option Z :=
  let body (sign : Z) (t : string) :=
    match int_digits true 0 0 t with
    | Some (v, n) => if n <=? int_max_str_digits then Some (sign * v) else None
    | None => None
    end in
  match int_rstrip (int_lstrip s) with
  | String c t =>
      if Ascii.eqb c "+" then body 1 t
      else if Ascii.eqb c "-" then body (-1) t
      else body 1 (String c t)
  | EmptyString => None
  end.

Fixpoint digits_fuel (fuel : nat) (n : Z) (acc : string) : string :=
  match fuel with
  | O => acc
  | S f =>
      let acc' := String (ascii_of_N (Z.to_N (48 + n mod 10))) acc in
      if n <? 10 then acc' else digits_fuel f (n / 10) acc'
  end.

(** The decimal digits of [n >= 0]; a number has no more decimal digits
    than binary ones, which bounds the recursion. *)
Definition digits (n : Z) : string :=
  digits_fuel (S (Z.to_nat (Z.log2 n))) n EmptyString.

(** [str(n)] for an [int]. *)
Definition of_int (n : Z) : string :=
  if n <? 0 then String "-" (digits (- n)) else digits n.

End Str.

(* ===================================================================== *)
(** ** Values, exceptions and effects *)
(* ===================================================================== *)

(** [dict] with string keys: insertion order is kept and an assignment to a
    key already present replaces its value in place. *)
Module Dict.

Definition t (V : Type) : Type := list (string * V).

Fixpoint get {V : Type} (k : string) (d : t V) : option V :=
  match d with
  | [] => None
  | (k', v) :: d' => if String.eqb k k' then Some v else get k d'
  end.

Fixpoint set {V : Type} (k : string) (v : V) (d : t V) : t V :=
  match d with
  | [] => [(k, v)]
  | (k', v') :: d' =>
      if String.eqb k k' then (k, v) :: d' else (k', v') :: set k v d'
  end.

End Dict.

Inductive exn : Type :=
| ValueError
| KeyError
| IndexError
| TypeError
| OSError
| NotImplementedError
| SystemExit (code : Z).

Inductive result (A : Type) : Type :=
| Ok (a : A)
| Raise (e : exn).
Arguments Ok {A} a.
Arguments Raise {A} e.

(** The change count of a file: an [int], or [float("NaN")]. *)
Inductive line_count : Type :=
| LcInt (z : Z)
| LcNaN.

(** [(status, file_path, line_count)] *)
Definition StatusRecord : Type := (string * string * line_count)%type.

(** [(marker, text)] *)
Definition DiffEntry : Type := (string * string)%type.

(** Pieces of a formatted message: literal text, [{x!r}] and [{x:<4}]. *)
Inductive frag : Type :=
| Lit (s : string)
| Repr (s : string)
| Left4 (d : line_count).

Definition text : Type := list frag.

(** A positional argument of a logger method. *)
Inductive pyval : Type :=
| PInt (z : Z)
| PText (t : text)
| PExn (e : exn).

(** What the program does to the outside: a [print], a record handed to
    [logging], a subprocess started in a directory, the table given to the
    console of [rich]. *)
Inductive event : Type :=
| Print (t : text)
| Log (level : Z) (msg : pyval) (args : list pyval)
| Run (cwd : string) (argv : list string)
| ConsolePrint (columns : list string) (rows : list (list string * string)).

(** What [yaml.safe_load] gives for a configuration file: [None] for an
    empty document, else a mapping from keys to lists of names. *)
Inductive yaml : Type :=
| YNone
| YMap (d : Dict.t (list string)).

Record CompletedProcess : Type := mkProcess {
  returncode : Z;
  stdout : string
}.

(** What the program reads but does not change: the file system, the
    environment, the parsed configuration files and git, which answers by
    the directory it runs in and its arguments. *)
Record world : Type := mkWorld {
  isdir : string -> bool;
  exists_ : string -> bool;
  listdir : string -> list string;
  environ_HOME : option string;
  yaml_safe_load : string -> yaml;
  run : string -> list string -> CompletedProcess
}.

Definition status_key : Type := (string * bool * bool)%type.

Record state : Type := mkState {
  cwd : string;
  verbosity : Z;
  console : list event;
  status_cache : list (status_key * list StatusRecord);
  diff_cache : list (string * Dict.t (list DiffEntry));
  remotes_cache : list (string * list string)
}.

Definition M (A : Type) : Type := state -> result A * state.

Definition ret {A : Type} (a : A) : M A := fun st => (Ok a, st).

Definition raise {A : Type} (e : exn) : M A := fun st => (Raise e, st).

Definition bind {A B : Type} (m : M A) (f : A -> M B) : M B :=
  fun st =>
    match m st with
    | (Ok a, st') => f a st'
    | (Raise e, st') => (Raise e, st')
    end.

Notation "x <- m ;; k" := (bind m (fun x => k))
  (at level 61, m at next level, right associativity).
Notation "m ;;; k" := (bind m (fun _ => k))
  (at level 61, right associativity).

(** [try: body finally: fin] *)
Definition try_finally {A : Type} (body : M A) (fin : M unit) : M A :=
  fun st =>
    let (r, st1) := body st in
    match fin st1 with
    | (Ok _, st2) => (r, st2)
    | (Raise e, st2) => (Raise e, st2)
    end.

Definition lift {A : Type} (r : result A) : M A := fun st => (r, st).

Definition emit (e : event) : M unit :=
  fun st =>
    (Ok tt, mkState (cwd st) (verbosity st) (console st ++ [e])
                    (status_cache st) (diff_cache st) (remotes_cache st)).

Definition print (t : text) : M unit := emit (Print t).

(** [os.path.join(a, b)] of [posixpath]. *)
Definition path_join (a b : string) : string :=
  if Str.startswith "/" b then b
  else if Str.isempty a || Str.endswith "/" a then a ++ b
  else a ++ "/" ++ b.

(** State updates. *)
Definition set_cwd (d : string) (st : state) : state :=
  mkState d (verbosity st) (console st)
          (status_cache st) (diff_cache st) (remotes_cache st).

Definition set_verbosity (v : Z) (st : state) : state :=
  mkState (cwd st) v (console st)
          (status_cache st) (diff_cache st) (remotes_cache st).

Definition set_status_cache (c : list (status_key * list StatusRecord))
  (st : state) : state :=
  mkState (cwd st) (verbosity st) (console st)
          c (diff_cache st) (remotes_cache st).

Definition set_diff_cache (c : list (string * Dict.t (list DiffEntry)))
  (st : state) : state :=
  mkState (cwd st) (verbosity st) (console st)
          (status_cache st) c (remotes_cache st).

Definition set_remotes_cache (c : list (string * list string))
  (st : state) : state :=
  mkState (cwd st) (verbosity st) (console st)
          (status_cache st) (diff_cache st) c.

(** A fresh process: nothing printed, nothing cached, verbosity
    [V_CONCISE]. *)
Definition initial_state (dir : string) : state :=
  mkState dir 0 [] [] [] [].

(* ===================================================================== *)
(** ** [functools.lru_cache] *)
(* ===================================================================== *)

Module Lru.

(** [@lru_cache] without arguments keeps 128 entries. *)
Definition maxsize : nat := 128.

Fixpoint find {K V : Type} (eqb : K -> K -> bool) (k : K)
  (c : list (K * V)) : option V :=
  match c with
  | [] => None
  | (k', v) :: c' => if eqb k k' then Some v else find eqb k c'
  end.

Definition remove {K V : Type} (eqb : K -> K -> bool) (k : K)
  (c : list (K * V)) : list (K * V) :=
  filter (fun kv => negb (eqb k (fst kv))) c.

(** The most recently used entry comes first; the entries beyond
    [maxsize] are the least recently used ones and are dropped. *)
Definition touch {K V : Type} (eqb : K -> K -> bool) (k : K) (v : V)
  (c : list (K * V)) : list (K * V) :=
  firstn maxsize ((k, v) :: remove eqb k c).

(** A call of a cached function: a hit returns the stored value without
    running the body, a miss runs it and stores its value; a body that
    raises stores nothing. *)
Definition cached {K V : Type} (eqb : K -> K -> bool)
  (getc : state -> list (K * V))
  (setc : list (K * V) -> state -> state)
  (k : K) (body : M V) : M V :=
  fun st =>
    match find eqb k (getc st) with
    | Some v => (Ok v, setc (touch eqb k v (getc st)) st)
    | None =>
        match body st with
        | (Ok v, st') => (Ok v, setc (touch eqb k v (getc st')) st')
        | (Raise e, st') => (Raise e, st')
        end
    end.

End Lru.

Definition status_key_eqb (a b : status_key) : bool :=
  let '(p1, u1, d1) := a in
  let '(p2, u2, d2) := b in
  String.eqb p1 p2 && Bool.eqb u1 u2 && Bool.eqb d1 d2.

(* ===================================================================== *)
(** ** rack/output.py *)
(* ===================================================================== *)

Definition V_CONCISE : Z := 0.
Definition V_INFORMATIVE : Z := 1.
Definition V_VERBOSE : Z := 2.
Definition V_DIAGNOSTIC : Z := 3.

Definition L_DEBUG : Z := 10.
Definition L_INFO : Z := 20.
Definition L_WARNING : Z := 30.
Definition L_ERROR : Z := 40.
Definition L_CRITICAL : Z := 50.

(** [msgout(verbosity, msg)] *)
Definition msgout (v : Z) (msg : text) : M unit :=
  fun st => if v <=? verbosity st then print msg st else (Ok tt, st).

Definition msgout_v : text -> M unit := msgout 1.

(** [VerbosityLogger.setVerbosity] *)
Definition VerbosityLogger_setVerbosity (v : Z) : M unit :=
  fun st => (Ok tt, set_verbosity v st).

(** [logging.Logger.log] reached through [super()]: the record is handed to
    the logging machinery. *)
Definition Logger_log (level : Z) (msg : pyval) (args : list pyval) : M unit :=
  emit (Log level msg args).

(** The five methods [debug], [info], [warning], [error] and [critical] of
    [VerbosityLogger] share one body,
    [def error(self, verbosity, msg, *args, **kwargs)]: the positional
    arguments of a call are bound to [verbosity], [msg] and [*args] in this
    order.  A call that leaves [msg] unbound is a [TypeError], and so is
    the comparison of the logger's verbosity with a non-number.  The
    program passes no keyword argument to these methods, so a call is its
    list of positional arguments. *)
Definition VerbosityLogger_method (level : Z) (positional : list pyval)
  : M unit :=
  match positional with
  | v :: msg :: args =>
      match v with
      | PInt n =>
          fun st =>
            if n <=? verbosity st then Logger_log level msg args st
            else (Ok tt, st)
      | _ => raise TypeError
      end
  | _ => raise TypeError
  end.

Definition VerbosityLogger_debug := VerbosityLogger_method L_DEBUG.
Definition VerbosityLogger_info := VerbosityLogger_method L_INFO.
Definition VerbosityLogger_warning := VerbosityLogger_method L_WARNING.
Definition VerbosityLogger_error := VerbosityLogger_method L_ERROR.
Definition VerbosityLogger_critical := VerbosityLogger_method L_CRITICAL.

(** [logging.Logger.exception(msg, *args)], which [VerbosityLogger] does not
    override: its body is [self.error(msg, *args, exc_info=exc_info)], a
    call of the overridden [error] with the same positional arguments. *)
Definition Logger_exception (positional : list pyval) : M unit :=
  match positional with
  | msg :: args => VerbosityLogger_error (msg :: args)
  | [] => raise TypeError
  end.

(* ===================================================================== *)
(** ** rack/__init__.py: error recovery and the parsers *)
(* ===================================================================== *)

(** The closure [error] of [error_recovery]; [must_exit] is the non-local
    flag, passed in and returned. *)
Definition error_recovery_error (debug : bool) (msg : text)
  (exception : option exn) (must_exit : bool) : M bool :=
  VerbosityLogger_error [PText msg] ;;;
  match exception with
  | Some e => Logger_exception [PExn e]
  | None => ret tt
  end ;;;
  ret (if debug then true else must_exit).

(** [with error_recovery(debug=debug) as recover: block].  The block gets
    [recover] and the flag and hands the flag back; when the block ends
    without an exception and the flag is set, [sys.exit(1)] runs.  An
    exception of the block passes through the context manager. *)
Definition error_recovery {A : Type} (debug : bool)
  (block : (text -> option exn -> bool -> M bool) -> bool -> M (A * bool))
  : M A :=
  r <- block (error_recovery_error debug) false ;;
  if snd r then raise (SystemExit 1) else ret (fst r).

(** The handler [except ValueError as e] of the two [try] blocks of the
    diff-stat loop.  [recover] returns [None], so the three prints run
    whenever it returns. *)
Definition parse_failed (recover : text -> option exn -> bool -> M bool)
  (line diff_output : string) (must_exit : bool) : M (line_count * bool) :=
  flag <- recover [Lit "Error parsing diff stat line: "; Repr line]
                  (Some ValueError) must_exit ;;
  print [Lit "Failing diff status output:"] ;;;
  print [Lit diff_output] ;;;
  print [Lit "END OF DIFF STATUS OUTPUT"] ;;;
  ret (LcNaN, flag).

(** What the two [try] blocks of the diff-stat loop compute from the text
    after the bar; [None] is the [ValueError] of an unpacking or of [int]. *)
Definition change_count (changes : string) : option Z :=
  let fields := Str.split " " None (Str.strip changes) in
  let line_status := hd EmptyString fields in
  if Str.startswith "bin" (Str.lower line_status) then
    match fields with
    | [_; old_size; _; new_size; _] =>
        match Str.int new_size, Str.int old_size with
        | Some n, Some o => Some (n - o)
        | _, _ => None
        end
    | _ => None
    end
  else Str.int line_status.

(** The block under [with error_recovery]: both [try] blocks have the same
    handler, [parse_failed]. *)
Definition line_changes (line diff_output changes : string)
  (recover : text -> option exn -> bool -> M bool) (must_exit : bool)
  : M (line_count * bool) :=
  match change_count changes with
  | Some lc => ret (LcInt lc, must_exit)
  | None => parse_failed recover line diff_output must_exit
  end.

(** One turn of the loop over the lines of [git diff --stat]. *)
Definition diff_stat_line (debug : bool) (diff_output line : string)
  (diff_stat : Dict.t line_count) : M (Dict.t line_count) :=
  if negb (Str.contains "|" line) then ret diff_stat
  else
    match Str.split "|" None line with
    | [file_path; changes] =>
        lc <- error_recovery debug (line_changes line diff_output changes) ;;
        ret (Dict.set (Str.strip file_path) lc diff_stat)
    | _ => ret diff_stat
    end.

Fixpoint diff_stat_loop (debug : bool) (diff_output : string)
  (lines : list string) (diff_stat : Dict.t line_count)
  : M (Dict.t line_count) :=
  match lines with
  | [] => ret diff_stat
  | line :: rest =>
      d <- diff_stat_line debug diff_output line diff_stat ;;
      diff_stat_loop debug diff_output rest d
  end.

(** The mapping [diff_stat] built from the result of [git diff --stat]. *)
Definition parse_diff_stat (debug : bool) (diff_stat_out : CompletedProcess)
  : M (Dict.t line_count) :=
  if returncode diff_stat_out =? 0 then
    let diff_output := stdout diff_stat_out in
    diff_stat_loop debug diff_output (Str.splitlines diff_output) []
  else ret [].

(** [line.strip().split(" ", 1)] *)
Definition status_fields (line : string) : list string :=
  Str.split " " (Some 1%nat) (Str.strip line).

(** The list comprehension that ends [git_status_files]; unpacking an item
    that has not exactly two fields is a [ValueError]. *)
Fixpoint status_records (show_untracked : bool) (diff_stat : Dict.t line_count)
  (status_filenames : list (list string)) : result (list StatusRecord) :=
  match status_filenames with
  | [] => Ok []
  | [status; file_path] :: rest =>
      match status_records show_untracked diff_stat rest with
      | Ok records =>
          if show_untracked || negb (String.eqb status "??") then
            Ok ((if String.eqb status "??" then "U" else status,
                 file_path,
                 match Dict.get file_path diff_stat with
                 | Some lc => lc
                 | None => LcInt 0
                 end) :: records)
          else Ok records
      | Raise e => Raise e
      end
  | _ :: _ => Raise ValueError
  end.

(** The marker of a line that is not a file header: the three [elif]
    tests of the loop of [git_diff]. *)
Definition diff_marker (line : string) : option string :=
  if Str.startswith "@@" line then Some "@"
  else if Str.startswith "+ " line then Some "+"
  else if Str.startswith "- " line then Some "-"
  else None.

(** [file_diffs[current_file].append((marker, line.split(" ", 1)[1].strip()))]:
    the subscript is evaluated before the argument, and [current_file] is
    [None] until the first file header. *)
Definition diff_append (marker line : string) (current_file : option string)
  (file_diffs : Dict.t (list DiffEntry)) : result (Dict.t (list DiffEntry)) :=
  match current_file with
  | None => Raise KeyError
  | Some f =>
      match Dict.get f file_diffs with
      | None => Raise KeyError
      | Some entries =>
          match nth_error (Str.split " " (Some 1%nat) line) 1 with
          | None => Raise IndexError
          | Some rest =>
              Ok (Dict.set f (entries ++ [(marker, Str.strip rest)])%list
                          file_diffs)
          end
      end
  end.

(** The loop of [git_diff] over the lines of [git diff]. *)
Fixpoint git_diff_loop (lines : list string)
  (file_diffs : Dict.t (list DiffEntry)) (current_file : option string)
  : result (Dict.t (list DiffEntry)) :=
  match lines with
  | [] => Ok file_diffs
  | line :: rest =>
      if Str.startswith "diff --git" line then
        match nth_error (Str.split " " (Some 3%nat) line) 2 with
        | None => Raise IndexError
        | Some f => git_diff_loop rest (Dict.set f [] file_diffs) (Some f)
        end
      else
        match diff_marker line with
        | Some m =>
            match diff_append m line current_file file_diffs with
            | Ok d => git_diff_loop rest d current_file
            | Raise e => Raise e
            end
        | None => git_diff_loop rest file_diffs current_file
        end
  end.

(** [(not x)] is false for a non-empty list. *)
Definition truthy {A : Type} (l : list A) : bool :=
  match l with [] => false | _ :: _ => true end.

(** Truth value of a change count: [0] is false, [NaN] is true. *)
Definition lc_truthy (d : line_count) : bool :=
  match d with LcInt z => negb (z =? 0) | LcNaN => true end.

Fixpoint insert_sorted (x : string) (l : list string) : list string :=
  match l with
  | [] => [x]
  | y :: l' => if String.leb x y then x :: l else y :: insert_sorted x l'
  end.

(** [list.sort()] on strings. *)
Definition sort (l : list string) : list string :=
  fold_right insert_sorted [] l.

Definition newline : string := String (ascii_of_nat 10) EmptyString.
Definition tab : string := String (ascii_of_nat 9) EmptyString.

(** The two characters that precede the change count in a status line. *)
Definition delta_sign : string :=
  String (ascii_of_nat 194) (String (ascii_of_nat 177) EmptyString).

(** The parsed command line, [ns]; the four flags of the [list] sub-command
    are read only when the action is [list]. *)
Record Namespace : Type := mkNamespace {
  ns_show_untracked : bool;
  ns_working_dir : string;
  ns_repo : option (list string);
  ns_changed : bool;
  ns_next : bool;
  ns_verbosity : Z;
  ns_debug : bool;
  ns_action : option string;
  ns_status : bool;
  ns_show_remotes : bool;
  ns_non_repos : bool;
  ns_non_repos_only : bool
}.

Section Program.

Variable w : world.

(** *** The operating system *)

Definition os_getcwd : M string := fun st => (Ok (cwd st), st).

(** [os.chdir]: the target must be a directory. *)
Definition os_chdir (path : string) : M unit :=
  fun st =>
    let target := path_join (cwd st) path in
    if isdir w target then (Ok tt, set_cwd target st) else (Raise OSError, st).

Definition os_path_isdir (path : string) : M bool :=
  fun st => (Ok (isdir w (path_join (cwd st) path)), st).

Definition os_path_exists (path : string) : M bool :=
  fun st => (Ok (exists_ w (path_join (cwd st) path)), st).

Definition os_listdir (path : string) : M (list string) :=
  fun st =>
    let target := path_join (cwd st) path in
    if isdir w target then (Ok (listdir w target), st) else (Raise OSError, st).

(** [run(argv, capture_output=True)] *)
Definition subprocess_run (argv : list string) : M CompletedProcess :=
  fun st => (emit (Run (cwd st) argv) ;;; ret (run w (cwd st) argv)) st.

(** *** rack/config.py *)

Definition load_rack_config (working_dir : string) : M yaml :=
  let rack_config_path := path_join working_dir ".rack.yaml" in
  present <- os_path_exists rack_config_path ;;
  if negb present then ret (YMap [])
  else fun st => (Ok (yaml_safe_load w (path_join (cwd st) rack_config_path)), st).

(** *** The query operations *)

Definition git_status_files_body (repo_path : string)
  (show_untracked debug : bool) : M (list StatusRecord) :=
  return_dir <- os_getcwd ;;
  os_chdir repo_path ;;;
  r <- try_finally
         (msgout_v [Lit ("Checking git status and diff: " ++ repo_path)] ;;;
          result <- subprocess_run ["git"; "status"; "--porcelain"] ;;
          diff_stat_out <- subprocess_run ["git"; "diff"; "--stat"] ;;
          diff_stat <- parse_diff_stat debug diff_stat_out ;;
          ret (result, diff_stat))
         (os_chdir return_dir) ;;
  let result := fst r in
  let diff_stat := snd r in
  if negb (returncode result =? 0) then
    print [Lit ("git status failed for " ++ repo_path)] ;;;
    ret []
  else
    lift (status_records show_untracked diff_stat
            (map status_fields (Str.splitlines (stdout result)))).

Definition git_status_files (repo_path : string)
  (show_untracked debug : bool) : M (list StatusRecord) :=
  Lru.cached status_key_eqb status_cache set_status_cache
    (repo_path, show_untracked, debug)
    (git_status_files_body repo_path show_untracked debug).

(** On a failure the source returns an empty list where it otherwise
    returns a dict; the callers only test the result for emptiness, so the
    empty dict stands for both. *)
Definition git_diff_body (repo_path : string) : M (Dict.t (list DiffEntry)) :=
  old_cwd <- os_getcwd ;;
  os_chdir repo_path ;;;
  try_finally
    (result <- subprocess_run ["git"; "diff"] ;;
     if negb (returncode result =? 0) then
       print [Lit ("git diff failed for " ++ repo_path)] ;;;
       ret []
     else lift (git_diff_loop (Str.splitlines (stdout result)) [] None))
    (os_chdir old_cwd).

Definition git_diff (repo_path : string) : M (Dict.t (list DiffEntry)) :=
  Lru.cached String.eqb diff_cache set_diff_cache repo_path
    (git_diff_body repo_path).

Definition get_list_remotes_body (repo_path : string) : M (list string) :=
  os_chdir repo_path ;;;
  result <- subprocess_run ["git"; "remote"] ;;
  if negb (returncode result =? 0) then
    print [Lit ("git remote failed for " ++ repo_path)] ;;;
    ret []
  else ret (Str.splitlines (stdout result)).

Definition get_list_remotes (repo_path : string) : M (list string) :=
  Lru.cached String.eqb remotes_cache set_remotes_cache repo_path
    (get_list_remotes_body repo_path).

(** [git_reset], [git_pull] and [git_push] differ by the command and the
    word of the message only. *)
Definition git_command (argv : list string) (word repo_path : string)
  : M bool :=
  os_chdir repo_path ;;;
  result <- subprocess_run argv ;;
  if negb (returncode result =? 0) then
    print [Lit ("git " ++ word ++ " failed for " ++ repo_path)] ;;;
    ret false
  else ret true.

Definition git_reset : string -> M bool :=
  git_command ["git"; "reset"; "--hard"; "HEAD"] "reset".
Definition git_pull : string -> M bool := git_command ["git"; "pull"] "pull".
Definition git_push : string -> M bool := git_command ["git"; "push"] "push".

(** *** [main] *)

(** [for x in l: body(x)] *)
Fixpoint for_each {A : Type} (l : list A) (body : A -> M unit) : M unit :=
  match l with
  | [] => ret tt
  | x :: rest => body x ;;; for_each rest body
  end.

(** The comprehension over [os.listdir(ns.working_dir)]: the sub-directories
    whose listing has ([want_git]) or has not a [".git"] entry. *)
Fixpoint scan_directories (want_git : bool) (working_dir : string)
  (names : list string) : M (list string) :=
  match names with
  | [] => ret []
  | repo :: rest =>
      d <- os_path_isdir (path_join working_dir repo) ;;
      keep <- (if d then
                 entries <- os_listdir (path_join working_dir repo) ;;
                 ret (Bool.eqb (existsb (String.eqb ".git") entries) want_git)
               else ret false) ;;
      kept <- scan_directories want_git working_dir rest ;;
      ret (if keep then repo :: kept else kept)
  end.

(** The choice of [repos]: the [-r] list, else the list of the
    configuration, else the repositories found in the working directory.
    The test ["repos" in rack_config] is a [TypeError] when the
    configuration is [None]. *)
Definition select_repos (ns : Namespace) (rack_config : yaml)
  : M (list string) :=
  match ns_repo ns with
  | Some (r :: rs) => ret (r :: rs)
  | _ =>
      match rack_config with
      | YNone => raise TypeError
      | YMap config =>
          match Dict.get "repos" config with
          | Some repos => ret repos
          | None =>
              names <- os_listdir (ns_working_dir ns) ;;
              scan_directories true (ns_working_dir ns) names
          end
      end
  end.

(** [if ns.changed]: keep the repositories with a non-empty status. *)
Fixpoint changed_repos (ns : Namespace) (repos : list string)
  : M (list string) :=
  match repos with
  | [] => ret []
  | repo :: rest =>
      files <- git_status_files (path_join (ns_working_dir ns) repo)
                 (ns_show_untracked ns) (ns_debug ns) ;;
      kept <- changed_repos ns rest ;;
      ret (if truthy files then repo :: kept else kept)
  end.

(** [if ns.next]: the first repository with a non-empty status, looked up
    under [$HOME/projects]; [repos] is left as it is when there is none. *)
Fixpoint next_repo (ns : Namespace) (pending repos : list string)
  : M (list string) :=
  match pending with
  | [] => ret repos
  | repo :: rest =>
      match environ_HOME w with
      | None => raise KeyError
      | Some home =>
          let repo_path := path_join (path_join home "projects") repo in
          files <- git_status_files repo_path
                     (ns_show_untracked ns) (ns_debug ns) ;;
          if truthy files then ret [repo] else next_repo ns rest repos
      end
  end.

(** The rows of the table of [list]. *)
Fixpoint table_rows (ns : Namespace) (columns : list string) (i : nat)
  (directories : list string) : M (list (list string * string)) :=
  match directories with
  | [] => ret []
  | directory :: rest =>
      let directory_path := path_join (ns_working_dir ns) directory in
      row1 <- (if ns_show_remotes ns then
                 remotes <- get_list_remotes directory_path ;;
                 ret [("remotes",
                       Str.join newline
                         (map (fun r => if String.eqb r "origin"
                                        then "[bright_black]" ++ r ++ "[/]"
                                        else r) remotes))]
               else ret []) ;;
      row2 <- (if ns_status ns then
                 files <- git_status_files directory_path
                            (ns_show_untracked ns) (ns_debug ns) ;;
                 ret (Dict.set "folder" directory
                        (Dict.set "changes"
                           (Str.of_int (Z.of_nat (length files))) row1))
               else ret (Dict.set "folder" directory row1)) ;;
      let row_values :=
        map (fun column => match Dict.get column row2 with
                           | Some v => v
                           | None => EmptyString
                           end) columns in
      let style := if Nat.even i then "row-even" else "row-odd" in
      rows <- table_rows ns columns (S i) rest ;;
      ret ((row_values, style) :: rows)
  end.

Definition action_list (ns : Namespace) (repos : list string)
  : M (option Z) :=
  if ns_non_repos_only ns && negb (ns_non_repos ns) then
    VerbosityLogger_error
      [PText [Lit "Cannot specify -O/--only-non-repos without -N/--non-repos"]] ;;;
    ret (Some 1)
  else if ns_non_repos_only ns && ns_status ns then
    VerbosityLogger_error
      [PText [Lit "Cannot specify -O/--only-non-repos with -s/--status"]] ;;;
    ret (Some 1)
  else
    directories <-
      (let directories := if negb (ns_non_repos_only ns) then repos else [] in
       if ns_non_repos ns then
         names <- os_listdir (ns_working_dir ns) ;;
         non_repos <- scan_directories false (ns_working_dir ns) names ;;
         ret (sort (directories ++ non_repos))
       else ret directories) ;;
    let columns :=
      (["changes"; "folder"]
         ++ if ns_show_remotes ns then ["remotes"] else [])%list in
    rows <- table_rows ns columns 0 directories ;;
    emit (ConsolePrint columns rows) ;;;
    ret None.

Definition action_status (ns : Namespace) (repos : list string) : M unit :=
  for_each repos (fun repo =>
    let repo_path := path_join (ns_working_dir ns) repo in
    files <- git_status_files repo_path
               (ns_show_untracked ns) (ns_debug ns) ;;
    if negb (truthy files) then ret tt
    else
      print [Lit ("Status for Repo: " ++ repo)] ;;;
      for_each files (fun record =>
        let '(status, file_path, diff) := record in
        let diff_str :=
          if lc_truthy diff then [Lit delta_sign; Left4 diff]
          else [Lit "    "] in
        print ([Lit ("  " ++ status ++ " ")] ++ diff_str
                 ++ [Lit (tab ++ file_path)])%list)).

Definition action_diff (ns : Namespace) (repos : list string) : M unit :=
  for_each repos (fun repo =>
    let repo_path := path_join (ns_working_dir ns) repo in
    file_diffs <- git_diff repo_path ;;
    if negb (truthy file_diffs) then
      if (length repos =? 1)%nat
      then print [Lit "Repository "; Lit repo; Lit " has no changes."]
      else ret tt
    else
      print [Lit ("Status for Repo: " ++ repo)] ;;;
      for_each file_diffs (fun item =>
        print [Lit "Diff for "; Repr (fst item)] ;;;
        for_each (snd item) (fun entry =>
          let '(code, line) := entry in
          if String.eqb code "@" then print [Lit ("  " ++ line)]
          else print [Lit ("  " ++ code ++ tab ++ line)]))).

Definition action_command (word : string) (command : string -> M bool)
  (ns : Namespace) (repos : list string) : M unit :=
  for_each repos (fun repo =>
    let repo_path := path_join (ns_working_dir ns) repo in
    print [Lit (word ++ " Repo: " ++ repo)] ;;;
    command repo_path ;;;
    ret tt).

(** [main], from the parsed command line on.  The value is what [main]
    returns: [Some 1], or [None] when it runs to its end. *)
Definition main (ns : Namespace) : M (option Z) :=
  VerbosityLogger_setVerbosity (ns_verbosity ns) ;;;
  os_chdir (ns_working_dir ns) ;;;
  rack_config <- load_rack_config (ns_working_dir ns) ;;
  if ns_next ns && match ns_repo ns with Some (_ :: _) => true | _ => false end
  then
    print [Lit "Cannot specify both --next and --repo"] ;;;
    ret (Some 1)
  else
    repos <- select_repos ns rack_config ;;
    repos <- (if ns_changed ns then changed_repos ns repos else ret repos) ;;
    repos <- (if ns_next ns then next_repo ns repos repos else ret repos) ;;
    match ns_action ns with
    | Some "list" => action_list ns repos
    | Some "status" => action_status ns repos ;;; ret None
    | Some "diff" => action_diff ns repos ;;; ret None
    | Some "reset" => action_command "Resetting" git_reset ns repos ;;; ret None
    | Some "pull" => action_command "Pulling" git_pull ns repos ;;; ret None
    | Some "push" => action_command "Pushing" git_push ns repos ;;; ret None
    | _ => raise NotImplementedError
    end.

End Program.

(* ===================================================================== *)
(** ** Specification-side notions *)
(* ===================================================================== *)

(** A string of decimal digits only. *)
Fixpoint all_digits (s : string) : bool :=
  match s with
  | EmptyString => true
  | String c s' =>
      match Str.digit_of c with
      | Some _ => all_digits s'
      | None => false
      end
  end.

(** The number a string of decimal digits denotes. *)
Fixpoint decimal_value (s : string) : Z :=
  match s with
  | EmptyString => 0
  | String c s' =>
      match Str.digit_of c with
      | Some d => d * 10 ^ Z.of_nat (String.length s') + decimal_value s'
      | None => 0
      end
  end.


(** A line that starts a file section, and the file it names. *)
Definition is_header (line : string) : bool :=
  Str.startswith "diff --git" line.

Definition header_file (line : string) : option string :=
  nth_error (Str.split " " (Some 3%nat) line) 2.

(** What one line of a file section contributes to the entries of its
    file. *)
Definition diff_entry (line : string) : list DiffEntry :=
  match diff_marker line, nth_error (Str.split " " (Some 1%nat) line) 1 with
  | Some m, Some rest => [(m, Str.strip rest)]
  | _, _ => []
  end.

Definition section_entries (body : list string) : list DiffEntry :=
  flat_map diff_entry body.

(** A line inside a file section: not a header, and a hunk header has a
    space in it (git writes ["@@ -a,b +c,d @@"]). *)
Definition body_line (line : string) : Prop :=
  is_header line = false
  /\ (Str.startswith "@@" line = true -> Str.contains " " line = true).

(** A line before the first file section that the parser passes over. *)
Definition plain_line (line : string) : Prop :=
  is_header line = false /\ diff_marker line = None.

(** One file section of a diff: its header, the file the header names and
    the lines up to the next header. *)
Record diff_section : Type := mkSection {
  sec_header : string;
  sec_file : string;
  sec_body : list string
}.

Definition section_lines (s : diff_section) : list string :=
  sec_header s :: sec_body s.

Definition section_ok (s : diff_section) : Prop :=
  is_header (sec_header s) = true
  /\ header_file (sec_header s) = Some (sec_file s)
  /\ Forall body_line (sec_body s).

(** *** Worlds and command lines of the examples *)

(** A working directory [/wd] with a repository [a], a plain directory [b]
    and a file; git answers in [/wd/a], where a text file and a binary file
    are modified and a file is untracked, and fails elsewhere. *)
Definition demo_world : world :=
  mkWorld
    (fun p => existsb (String.eqb p) ["/"; "/wd"; "/wd/a"; "/wd/b"])
    (fun _ => false)
    (fun p => if String.eqb p "/wd" then ["a"; "b"; "notes.txt"]
              else if String.eqb p "/wd/a" then [".git"; "setup.py"]
              else if String.eqb p "/wd/b" then ["x"]
              else [])
    (Some "/home/u")
    (fun _ => YMap [])
    (fun dir argv =>
       if String.eqb dir "/wd/a" then
         match argv with
         | ["git"; "status"; "--porcelain"] =>
             mkProcess 0 (" M setup.py" ++ newline ++ " M logo.png" ++ newline
                            ++ "?? new.txt" ++ newline)
         | ["git"; "diff"; "--stat"] =>
             mkProcess 0 (" setup.py | 2 +-" ++ newline
                            ++ " logo.png | Bin 100 -> 200 bytes" ++ newline
                            ++ " 2 files changed, 1 insertion(+), 1 deletion(-)"
                            ++ newline)
         | ["git"; "remote"] => mkProcess 0 ("origin" ++ newline)
         | _ => mkProcess 0 EmptyString
         end
       else mkProcess 128 EmptyString).

(** The same directories; in [/wd/a] a merge is under way, so
    [git diff --stat] reports an unmerged file; [git status] exits with
    [status_code]. *)
Definition unmerged_world (status_code : Z) : world :=
  mkWorld (isdir demo_world) (exists_ demo_world) (listdir demo_world)
    (environ_HOME demo_world) (yaml_safe_load demo_world)
    (fun dir argv =>
       if String.eqb dir "/wd/a" then
         match argv with
         | ["git"; "status"; "--porcelain"] =>
             mkProcess status_code
               ("UU setup.py" ++ newline ++ " M util.py" ++ newline)
         | ["git"; "diff"; "--stat"] =>
             mkProcess 0 (" setup.py | Unmerged" ++ newline
                            ++ " util.py | 3 ++-" ++ newline)
         | _ => mkProcess 0 EmptyString
         end
       else mkProcess 128 EmptyString).

(** [rack -d /wd -r b a -- <action>]: the plain directory first. *)
Definition ns_both (action : string) : Namespace :=
  mkNamespace false "/wd" (Some ["b"; "a"]) false false 0 false (Some action)
              false false false false.

(** The same directories; [git diff] in [/wd/a] answers with text whose
    first file header is missing. *)
Definition headless_world : world :=
  mkWorld (isdir demo_world) (exists_ demo_world) (listdir demo_world)
    (environ_HOME demo_world) (yaml_safe_load demo_world)
    (fun dir argv =>
       mkProcess 0 ("index 21d76d2..44df869 100644" ++ newline
                      ++ "@@ -13,7 +13,7 @@ setup(" ++ newline
                      ++ "-    version='0.1.5'," ++ newline
                      ++ "+    version='0.1.7'," ++ newline)).

(** A diff of two files, as git prints it. *)
Definition two_file_diff : list diff_section :=
  [mkSection "diff --git a/setup.py b/setup.py" "a/setup.py"
     ["index 21d76d2..44df869 100644";
      "--- a/setup.py";
      "+++ b/setup.py";
      "@@ -13,7 +13,7 @@ with open(os.path.join(_project_root, 'README.md'))";
      " setup(";
      "-    version='0.1.5',";
      "+    version='0.1.7',";
      "     author='Red Hat PEAQE Team',"];
   mkSection "diff --git a/README.md b/README.md" "a/README.md"
     ["index 83db48f..bf2a1c5 100644";
      "--- a/README.md";
      "+++ b/README.md";
      "@@ -1,2 +1,3 @@";
      " # orion-utils";
      "+  * a new item";
      "+unindented addition"]].

(** [rack -d /wd <action>] with every flag off. *)
Definition plain_ns (action : string) : Namespace :=
  mkNamespace false "/wd" None false false 0 false (Some action)
              false false false false.

(** [rack -d /wd list -O] *)
Definition ns_list_only : Namespace :=
  mkNamespace false "/wd" None false false 0 false (Some "list")
              false false false true.

(** [rack -d /wd list -O -N -s] *)
Definition ns_list_only_status : Namespace :=
  mkNamespace false "/wd" None false false 0 false (Some "list")
              true false true true.

(** [rack -d /wd -C list -O] *)
Definition ns_changed_list_only : Namespace :=
  mkNamespace false "/wd" None true false 0 false (Some "list")
              false false false true.

(** *** Notions used by the further properties *)

(** The number of occurrences of a character. *)
Fixpoint count_char (c : ascii) (s : string) : nat :=
  match s with
  | EmptyString => O
  | String b s' => (if Ascii.eqb c b then 1 else 0) + count_char c s'
  end.

(** An entry as the diff parser builds it: one of the three markers, and a
    text without white space at either end. *)
Definition entry_ok (e : DiffEntry) : Prop :=
  (fst e = "@" \/ fst e = "+" \/ fst e = "-") /\ Str.strip (snd e) = snd e.

(** The status code of the list that [line.strip().split(" ", 1)] gives. *)
Definition status_of (item : list string) : string := hd EmptyString item.

(** What one repository adds to the console under [reset], [pull] or
    [push]: the announcement, the git command run in the directory of the
    repository, and the failure message when git exits non-zero. *)
Definition command_trace (w : world) (announce word : string)
  (argv : list string) (working_dir repo : string) : list event :=
  let repo_path := path_join working_dir repo in
  [Print [Lit (announce ++ " Repo: " ++ repo)]; Run repo_path argv]
    ++ (if returncode (run w repo_path argv) =? 0 then []
        else [Print [Lit ("git " ++ word ++ " failed for " ++ repo_path)]]).

(** A world for [--next]: the repositories live under [$HOME/projects];
    [a] has a modified file, [b] is not a repository. *)
Definition home_world : world :=
  mkWorld
    (fun p => existsb (String.eqb p)
                ["/"; "/wd"; "/home/u/projects/a"; "/home/u/projects/b"])
    (fun _ => false)
    (fun _ => [])
    (Some "/home/u")
    (fun _ => YMap [])
    (fun dir argv =>
       if String.eqb dir "/home/u/projects/a" then
         match argv with
         | ["git"; "status"; "--porcelain"] =>
             mkProcess 0 (" M setup.py" ++ newline)
         | _ => mkProcess 0 EmptyString
         end
       else mkProcess 128 EmptyString).

(** The same world without [HOME] in the environment. *)
Definition homeless_world : world :=
  mkWorld (isdir home_world) (exists_ home_world) (listdir home_world)
    None (yaml_safe_load home_world) (run home_world).

(** A working directory [/wd] that holds the repository [a] and a
    directory of its own name, [/wd/wd], which holds the repository [z]. *)
Definition nested_world : world :=
  mkWorld
    (fun p => existsb (String.eqb p)
                ["/"; "/wd"; "/wd/a"; "/wd/wd"; "/wd/wd/z"])
    (fun _ => false)
    (fun p => if String.eqb p "/wd" then ["a"; "wd"]
              else if String.eqb p "/wd/a" then [".git"]
              else if String.eqb p "/wd/wd" then ["z"]
              else if String.eqb p "/wd/wd/z" then [".git"]
              else [])
    (Some "/home/u")
    (fun _ => YMap [])
    (fun _ _ => mkProcess 0 EmptyString).

(** The example directory with an empty [.rack.yaml] in it. *)
Definition empty_config_world : world :=
  mkWorld (isdir demo_world) (fun p => String.eqb p "/wd/.rack.yaml")
    (listdir demo_world) (environ_HOME demo_world) (fun _ => YNone)
    (run demo_world).

(** [rack -d wd list], started in [/]. *)
Definition ns_relative_list : Namespace :=
  mkNamespace false "wd" None false false 0 false (Some "list")
              false false false false.

(** [rack -d /wd -r a b -- branch] *)
Definition ns_branch : Namespace :=
  mkNamespace false "/wd" (Some ["a"; "b"]) false false 0 false (Some "branch")
              false false false false.

(** [rack -d /wd -n -r a list] *)
Definition ns_next_repo : Namespace :=
  mkNamespace false "/wd" (Some ["a"]) false true 2 false (Some "list")
              false false false false.

(** [rack -d wd status], started in [/]: the working directory is given by
    a relative name. *)
Definition ns_relative : Namespace :=
  mkNamespace false "wd" None false false 0 false (Some "status")
              false false false false.

(** Projections of an explicitly built state. *)
Ltac state_simpl :=
  cbn [cwd set_cwd set_verbosity verbosity console status_cache diff_cache
       remotes_cache].

(* ===================================================================== *)
(** ** Facts about the string methods *)
(* ===================================================================== *)

Lemma contains_app (c : ascii) (a b : string) :
  Str.contains c (a ++ b) = Str.contains c a || Str.contains c b.
Proof.
  induction a as [|x a IH]; simpl; [reflexivity|].
  rewrite IH. now rewrite orb_assoc.
Qed.

Lemma split_without_sep (sep : ascii) (s : string) :
  Str.contains sep s = false -> Str.split sep None s = [s].
Proof.
  induction s as [|c s IH]; simpl; intros H; [reflexivity|].
  apply orb_false_elim in H. destruct H as [Hc Hs].
  rewrite Ascii.eqb_sym, Hc. simpl. now rewrite (IH Hs).
Qed.

Lemma split_at_first_sep (sep : ascii) (s t : string) :
  Str.contains sep s = false ->
  Str.split sep None (s ++ String sep t) = s :: Str.split sep None t.
Proof.
  induction s as [|c s IH]; simpl; intros H.
  - now rewrite Ascii.eqb_refl.
  - apply orb_false_elim in H. destruct H as [Hc Hs].
    rewrite Ascii.eqb_sym, Hc. simpl. now rewrite (IH Hs).
Qed.

(** With [maxsplit = 1] the text after the first separator is kept whole. *)
Lemma split_limit_zero (sep : ascii) (s : string) :
  Str.split sep (Some 0%nat) s = [s].
Proof.
  induction s as [|c s IH]; simpl; [reflexivity|].
  rewrite andb_false_r. now rewrite IH.
Qed.

Lemma split_once (sep : ascii) (s t : string) :
  Str.contains sep s = false ->
  Str.split sep (Some 1%nat) (s ++ String sep t) = [s; t].
Proof.
  induction s as [|c s IH]; simpl; intros H.
  - rewrite Ascii.eqb_refl. simpl. now rewrite split_limit_zero.
  - apply orb_false_elim in H. destruct H as [Hc Hs].
    rewrite Ascii.eqb_sym, Hc. simpl. now rewrite (IH Hs).
Qed.


Lemma digit_not_space (c : ascii) (d : Z) :
  Str.digit_of c = Some d -> Str.isspace c = false.
Proof.
  unfold Str.digit_of, Str.isspace. cbv zeta. intros H.
  destruct ((48 <=? Str.code c) && (Str.code c <=? 57)) eqn:E; [|discriminate].
  apply andb_true_iff in E. destruct E as [E1 E2].
  apply Z.leb_le in E1. apply Z.leb_le in E2.
  replace (Str.code c <=? 13) with false by (symmetry; apply Z.leb_gt; lia).
  replace (Str.code c <=? 32) with false by (symmetry; apply Z.leb_gt; lia).
  replace (Str.code c =? 133) with false by (symmetry; apply Z.eqb_neq; lia).
  replace (Str.code c =? 160) with false by (symmetry; apply Z.eqb_neq; lia).
  now rewrite !andb_false_r.
Qed.

Lemma digit_of_range (c : ascii) (d : Z) :
  Str.digit_of c = Some d -> 0 <= d <= 9 /\ Str.code c = 48 + d.
Proof.
  unfold Str.digit_of. cbv zeta. intros H.
  destruct ((48 <=? Str.code c) && (Str.code c <=? 57)) eqn:E; [|discriminate].
  apply andb_true_iff in E. destruct E as [E1 E2].
  apply Z.leb_le in E1. apply Z.leb_le in E2. inversion H. lia.
Qed.

Lemma code_inj (a b : ascii) : Str.code a = Str.code b -> a = b.
Proof.
  unfold Str.code. intros H. apply N2Z.inj in H.
  rewrite <- (ascii_N_embedding a), <- (ascii_N_embedding b). now rewrite H.
Qed.

Lemma digit_is_not (c x : ascii) (d : Z) :
  Str.digit_of c = Some d ->
  (Str.code x < 48 \/ 57 < Str.code x) -> Ascii.eqb x c = false.
Proof.
  intros H Hx. apply digit_of_range in H. apply Ascii.eqb_neq.
  intros ->. lia.
Qed.

Lemma all_digits_without (x : ascii) (s : string) :
  (Str.code x < 48 \/ 57 < Str.code x) ->
  all_digits s = true -> Str.contains x s = false.
Proof.
  intros Hx. induction s as [|c s IH]; simpl; [reflexivity|].
  destruct (Str.digit_of c) eqn:E; [|discriminate].
  intros H. rewrite (digit_is_not _ _ _ E Hx). simpl. auto.
Qed.

Lemma all_digits_rstrip (s : string) :
  all_digits s = true -> Str.rstrip s = s.
Proof.
  induction s as [|c s IH]; simpl; [reflexivity|].
  destruct (Str.digit_of c) eqn:E; [|discriminate].
  intros H. rewrite (digit_not_space _ _ E). simpl. now rewrite IH.
Qed.

Lemma all_digits_strip (s : string) :
  all_digits s = true -> Str.strip s = s.
Proof.
  intros H. unfold Str.strip.
  destruct s as [|c s]; [reflexivity|].
  simpl in H |- *. destruct (Str.digit_of c) eqn:E; [|discriminate].
  rewrite (digit_not_space _ _ E).
  change (Str.rstrip (String c s) = String c s).
  apply all_digits_rstrip. simpl. now rewrite E.
Qed.

(** *** [int] reads back what [str] prints *)

Lemma digit_not_int_space (c : ascii) (d : Z) :
  Str.digit_of c = Some d -> Str.int_space c = false.
Proof.
  intros H. pose proof (digit_of_range _ _ H) as [R E].
  unfold Str.int_space. cbv zeta.
  replace (Str.code c <=? 13) with false by (symmetry; apply Z.leb_gt; lia).
  replace (Str.code c =? 32) with false by (symmetry; apply Z.eqb_neq; lia).
  replace (Str.code c =? 133) with false by (symmetry; apply Z.eqb_neq; lia).
  replace (Str.code c =? 160) with false by (symmetry; apply Z.eqb_neq; lia).
  now rewrite andb_false_r.
Qed.

Lemma all_digits_int_rstrip (s : string) :
  all_digits s = true -> Str.int_rstrip s = s.
Proof.
  induction s as [|c s IH]; cbn [all_digits Str.int_rstrip]; [reflexivity|].
  destruct (Str.digit_of c) eqn:E; [|discriminate].
  intros H. rewrite (digit_not_int_space _ _ E). cbn [andb].
  now rewrite IH.
Qed.

Lemma all_digits_int_strip (s : string) :
  all_digits s = true -> Str.int_rstrip (Str.int_lstrip s) = s.
Proof.
  intros H. destruct s as [|c s]; [reflexivity|].
  cbn [all_digits] in H. cbn [Str.int_lstrip].
  destruct (Str.digit_of c) eqn:E; [|discriminate].
  rewrite (digit_not_int_space _ _ E).
  apply all_digits_int_rstrip. cbn [all_digits]. now rewrite E.
Qed.

Lemma pow10_succ (n : nat) : 10 ^ Z.of_nat (S n) = 10 * 10 ^ Z.of_nat n.
Proof. rewrite Nat2Z.inj_succ. apply Z.pow_succ_r. lia. Qed.

Lemma int_digits_all (s : string) :
  all_digits s = true ->
  forall acc k,
    Str.int_digits false acc k s
    = Some (acc * 10 ^ Z.of_nat (String.length s) + decimal_value s,
            k + Z.of_nat (String.length s)).
Proof.
  induction s as [|c s IH]; intros H acc k.
  - simpl. f_equal. f_equal; lia.
  - simpl in H. cbn [Str.int_digits decimal_value String.length].
    destruct (Str.digit_of c) as [d|] eqn:E; [|discriminate].
    assert (Hu : Ascii.eqb c "_" = false).
    { rewrite Ascii.eqb_sym. apply (digit_is_not _ _ _ E). right.
      vm_compute. reflexivity. }
    rewrite Hu, (IH H), pow10_succ. f_equal. f_equal; lia.
Qed.

Lemma int_digits_first (under : bool) (c : ascii) (s : string) :
  all_digits (String c s) = true ->
  Str.int_digits under 0 0 (String c s)
  = Some (decimal_value (String c s), Z.of_nat (String.length (String c s))).
Proof.
  intros H. pose proof (int_digits_all _ H 0 0) as P.
  rewrite Z.mul_0_l, !Z.add_0_l in P. rewrite <- P.
  simpl in H |- *. destruct (Str.digit_of c) as [d|] eqn:E; [|discriminate].
  assert (Hu : Ascii.eqb c "_" = false).
  { rewrite Ascii.eqb_sym. apply (digit_is_not _ _ _ E). right.
    vm_compute. reflexivity. }
  now rewrite Hu.
Qed.

Lemma all_digits_app (a b : string) :
  all_digits (a ++ b) = all_digits a && all_digits b.
Proof.
  induction a as [|c a IH]; simpl; [reflexivity|].
  destruct (Str.digit_of c); [exact IH|reflexivity].
Qed.

Lemma length_app (a b : string) :
  String.length (a ++ b) = (String.length a + String.length b)%nat.
Proof. induction a as [|c a IH]; simpl; [reflexivity|now rewrite IH]. Qed.

Lemma decimal_value_app (a b : string) :
  all_digits a = true ->
  decimal_value (a ++ b)
  = decimal_value a * 10 ^ Z.of_nat (String.length b) + decimal_value b.
Proof.
  induction a as [|c a IH]; simpl; intros H; [reflexivity|].
  destruct (Str.digit_of c) as [d|]; [|discriminate].
  rewrite (IH H), length_app, Nat2Z.inj_add, Z.pow_add_r by lia. ring.
Qed.

Lemma digit_of_char (d : Z) :
  0 <= d <= 9 -> Str.digit_of (ascii_of_N (Z.to_N (48 + d))) = Some d.
Proof.
  intros H.
  assert (C : d = 0 \/ d = 1 \/ d = 2 \/ d = 3 \/ d = 4 \/ d = 5 \/ d = 6
              \/ d = 7 \/ d = 8 \/ d = 9) by lia.
  repeat (destruct C as [->|C]; [reflexivity|]). now subst.
Qed.

Lemma app_assoc_one (s acc : string) (c : ascii) :
  s ++ String c acc = (s ++ String c EmptyString) ++ acc.
Proof. induction s as [|x s IH]; simpl; [reflexivity|now rewrite IH]. Qed.

(** What the digit loop produces when its fuel covers the number. *)
Lemma digits_fuel_spec (f : nat) :
  forall n acc,
    0 <= n -> n < 10 ^ Z.of_nat (S f) ->
    exists s,
      Str.digits_fuel (S f) n acc = s ++ acc
      /\ all_digits s = true
      /\ s <> EmptyString
      /\ decimal_value s = n
      /\ (forall k, (1 <= k)%nat -> n < 10 ^ Z.of_nat k ->
                    (String.length s <= k)%nat).
Proof.
  induction f as [|f IH]; intros n acc Hn Hlt.
  - change (10 ^ Z.of_nat 1) with 10 in Hlt.
    exists (String (ascii_of_N (Z.to_N (48 + n mod 10))) EmptyString).
    cbn [Str.digits_fuel]. apply Z.ltb_lt in Hlt. rewrite Hlt.
    apply Z.ltb_lt in Hlt.
    assert (D : Str.digit_of (ascii_of_N (Z.to_N (48 + n mod 10)))
                = Some (n mod 10)).
    { apply digit_of_char. rewrite Z.mod_small; lia. }
    repeat split.
    + cbn [all_digits]. now rewrite D.
    + discriminate.
    + cbn [decimal_value String.length]. rewrite D.
      change (10 ^ Z.of_nat 0) with 1. rewrite Z.mod_small; lia.
    + intros k Hk _. simpl. lia.
  - assert (D : Str.digit_of (ascii_of_N (Z.to_N (48 + n mod 10)))
                = Some (n mod 10)).
    { apply digit_of_char. pose proof (Z.mod_pos_bound n 10). lia. }
    destruct (n <? 10) eqn:E.
    + exists (String (ascii_of_N (Z.to_N (48 + n mod 10))) EmptyString).
      change (Str.digits_fuel (S (S f)) n acc)
        with (let acc' := String (ascii_of_N (Z.to_N (48 + n mod 10))) acc in
              if n <? 10 then acc' else Str.digits_fuel (S f) (n / 10) acc').
      cbv zeta. rewrite E. apply Z.ltb_lt in E.
      repeat split.
      * cbn [all_digits]. now rewrite D.
      * discriminate.
      * cbn [decimal_value String.length]. rewrite D.
      change (10 ^ Z.of_nat 0) with 1. rewrite Z.mod_small; lia.
      * intros k Hk _. simpl. lia.
    + apply Z.ltb_ge in E.
      assert (Hq : n / 10 < 10 ^ Z.of_nat (S f)).
      { apply Z.div_lt_upper_bound; [lia|]. now rewrite <- pow10_succ. }
      assert (Hq0 : 0 <= n / 10) by (apply Z.div_pos; lia).
      destruct (IH (n / 10)
                   (String (ascii_of_N (Z.to_N (48 + n mod 10))) acc) Hq0 Hq)
        as (s & Es & As & Ns & Vs & Ls).
      exists (s ++ String (ascii_of_N (Z.to_N (48 + n mod 10))) EmptyString).
      change (Str.digits_fuel (S (S f)) n acc)
        with (let acc' := String (ascii_of_N (Z.to_N (48 + n mod 10))) acc in
              if n <? 10 then acc' else Str.digits_fuel (S f) (n / 10) acc').
      cbv zeta. apply Z.ltb_ge in E. rewrite E. apply Z.ltb_ge in E.
      repeat split.
      * rewrite Es. apply app_assoc_one.
      * rewrite all_digits_app, As. cbn [all_digits andb]. now rewrite D.
      * destruct s; discriminate.
      * rewrite (decimal_value_app _ _ As), Vs.
        cbn [decimal_value String.length]. rewrite D.
        change (10 ^ Z.of_nat 1) with 10. change (10 ^ Z.of_nat 0) with 1.
        pose proof (Z.div_mod n 10). lia.
      * intros k Hk Hnk. rewrite length_app. simpl.
        destruct k as [|k]; [lia|]. destruct k as [|k].
        { change (10 ^ Z.of_nat 1) with 10 in Hnk. lia. }
        assert (String.length s <= S k)%nat; [|lia].
        apply Ls; [lia|].
        apply Z.div_lt_upper_bound; [lia|]. now rewrite <- pow10_succ.
Qed.

Lemma digits_spec (n : Z) :
  0 <= n ->
  all_digits (Str.digits n) = true
  /\ Str.digits n <> EmptyString
  /\ decimal_value (Str.digits n) = n
  /\ (forall k, (1 <= k)%nat -> n < 10 ^ Z.of_nat k ->
                (String.length (Str.digits n) <= k)%nat).
Proof.
  intros Hn. unfold Str.digits.
  assert (Hf : n < 10 ^ Z.of_nat (S (Z.to_nat (Z.log2 n)))).
  { rewrite Nat2Z.inj_succ, Z2Nat.id by apply Z.log2_nonneg.
    destruct (Z.eq_dec n 0) as [->|Hz]; [reflexivity|].
    destruct (Z.log2_spec n) as [_ Hu]; [lia|].
    eapply Z.lt_le_trans; [exact Hu|].
    apply Z.pow_le_mono_l. split; [lia|lia]. }
  destruct (digits_fuel_spec _ n EmptyString Hn Hf) as (s & Es & R).
  rewrite Es. replace (s ++ EmptyString) with s; [exact R|].
  clear. induction s as [|c s IH]; simpl; [reflexivity|now rewrite <- IH].
Qed.

(** [int(str(n)) = n] for a natural number within the digit limit. *)
Lemma int_of_int (n : Z) :
  0 <= n < 10 ^ Str.int_max_str_digits ->
  Str.int (Str.of_int n) = Some n.
Proof.
  intros [Hn Hlt]. unfold Str.of_int.
  replace (n <? 0) with false by (symmetry; apply Z.ltb_ge; lia).
  destruct (digits_spec n Hn) as (A & N & V & L).
  unfold Str.int. rewrite (all_digits_int_strip _ A).
  destruct (Str.digits n) as [|c s] eqn:E; [contradiction|].
  assert (D : exists d, Str.digit_of c = Some d).
  { simpl in A. destruct (Str.digit_of c) as [d|]; [now exists d|discriminate]. }
  destruct D as [d D].
  assert (Hp : Ascii.eqb c "+" = false).
  { rewrite Ascii.eqb_sym. apply (digit_is_not _ _ _ D). left.
    vm_compute. reflexivity. }
  assert (Hm : Ascii.eqb c "-" = false).
  { rewrite Ascii.eqb_sym. apply (digit_is_not _ _ _ D). left.
    vm_compute. reflexivity. }
  rewrite Hp, Hm, (int_digits_first _ _ _ A), V.
  assert (B : (String.length (String c s) <= 4300)%nat).
  { apply L; [lia|]. exact Hlt. }
  replace (Z.of_nat (String.length (String c s)) <=? Str.int_max_str_digits)
    with true.
  - f_equal. lia.
  - symmetry. apply Z.leb_le. unfold Str.int_max_str_digits. lia.
Qed.

(* ===================================================================== *)
(** ** The diff-stat parser *)
(* ===================================================================== *)

Lemma of_int_digits (n : Z) : 0 <= n -> Str.of_int n = Str.digits n.
Proof.
  intros H. unfold Str.of_int.
  now replace (n <? 0) with false by (symmetry; apply Z.ltb_ge; lia).
Qed.

Lemma of_int_without (x : ascii) (n : Z) :
  0 <= n -> (Str.code x < 48 \/ 57 < Str.code x) ->
  Str.contains x (Str.of_int n) = false.
Proof.
  intros H Hx. rewrite (of_int_digits _ H).
  apply all_digits_without; [exact Hx|]. now apply digits_spec.
Qed.


(** A line whose change count parses leaves the console and the caches as
    they are and records the count under the stripped path. *)
Lemma diff_stat_line_parsed (debug : bool) (diff_output : string)
  (file_path changes : string) (lc : Z) (d : Dict.t line_count) (st : state) :
  Str.contains "|" file_path = false ->
  Str.contains "|" changes = false ->
  change_count changes = Some lc ->
  diff_stat_line debug diff_output (file_path ++ String "|" changes) d st
  = (Ok (Dict.set (Str.strip file_path) (LcInt lc) d), st).
Proof.
  intros Hf Hc Hlc. unfold diff_stat_line.
  rewrite contains_app. cbn [Str.contains]. rewrite Ascii.eqb_refl.
  rewrite orb_true_r. cbn [negb orb].
  rewrite (split_at_first_sep _ _ _ Hf), (split_without_sep _ _ Hc).
  unfold error_recovery, line_changes, bind, ret. now rewrite Hlc.
Qed.



(* ===================================================================== *)
(** ** The logger and error recovery *)
(* ===================================================================== *)

Lemma method_single_argument (level : Z) (a : pyval) (st : state) :
  VerbosityLogger_method level [a] st = (Raise TypeError, st).
Proof. reflexivity. Qed.

Lemma recover_raises (debug : bool) (msg : text) (exception : option exn)
  (must_exit : bool) (st : state) :
  error_recovery_error debug msg exception must_exit st
  = (Raise TypeError, st).
Proof. reflexivity. Qed.

(** C9: a call of [VerbosityLogger.error], [debug], [info], [warning] or
    [critical] with one positional argument raises [TypeError], whatever the
    argument and the verbosity; the closure [error] of [error_recovery] and
    the two flag checks of the [list] action make such calls, so they raise
    [TypeError] before anything is logged. *)
Theorem logger_single_argument_raises :
  (forall level a st,
      VerbosityLogger_method level [a] st = (Raise TypeError, st))
  /\ (forall a st,
         VerbosityLogger_debug [a] st = (Raise TypeError, st)
         /\ VerbosityLogger_info [a] st = (Raise TypeError, st)
         /\ VerbosityLogger_warning [a] st = (Raise TypeError, st)
         /\ VerbosityLogger_error [a] st = (Raise TypeError, st)
         /\ VerbosityLogger_critical [a] st = (Raise TypeError, st))
  /\ (forall debug msg exception must_exit st,
         error_recovery_error debug msg exception must_exit st
         = (Raise TypeError, st))
  /\ (forall w ns repos st,
         ns_non_repos_only ns = true ->
         ns_non_repos ns = false \/ ns_status ns = true ->
         action_list w ns repos st = (Raise TypeError, st)).
Proof.
  split; [intros; reflexivity|].
  split; [intros; repeat split|].
  split; [intros; reflexivity|].
  intros w ns repos st Ho H. unfold action_list. rewrite Ho.
  destruct (ns_non_repos ns) eqn:En; [|reflexivity].
  destruct H as [H|H]; [discriminate|]. rewrite H. reflexivity.
Qed.

Lemma logger_single_argument_raises_witness :
  (ns_non_repos_only ns_list_only_status = true
   /\ (ns_non_repos ns_list_only_status = false
       \/ ns_status ns_list_only_status = true))
  /\ action_list demo_world ns_list_only_status ["a"] (initial_state "/wd")
     = (Raise TypeError, initial_state "/wd").
Proof.
  split.
  - split; [reflexivity|right; reflexivity].
  - apply (proj2 (proj2 (proj2 logger_single_argument_raises))).
    + reflexivity.
    + right. reflexivity.
Defined.

(** A line of the diff-stat listing whose change count does not parse makes
    the loop raise [TypeError]: the handler calls [recover], which calls the
    logger with the message alone. *)
Lemma malformed_line_raises (debug : bool) (diff_output : string)
  (file_path changes : string) (d : Dict.t line_count) (st : state) :
  Str.contains "|" file_path = false ->
  Str.contains "|" changes = false ->
  change_count changes = None ->
  diff_stat_line debug diff_output (file_path ++ String "|" changes) d st
  = (Raise TypeError, st).
Proof.
  intros Hf Hc Hlc. unfold diff_stat_line.
  rewrite contains_app. cbn [Str.contains]. rewrite Ascii.eqb_refl.
  rewrite orb_true_r. cbn [negb orb].
  rewrite (split_at_first_sep _ _ _ Hf), (split_without_sep _ _ Hc).
  unfold error_recovery, line_changes, bind. now rewrite Hlc.
Qed.

(** One turn of the diff-stat loop either raises [TypeError] or returns,
    and then it has printed and logged nothing and has stored nothing or an
    integer. *)
Lemma diff_stat_line_outcome (debug : bool) (diff_output line : string)
  (d : Dict.t line_count) (st : state) :
  diff_stat_line debug diff_output line d st = (Raise TypeError, st)
  \/ diff_stat_line debug diff_output line d st = (Ok d, st)
  \/ exists k z,
       diff_stat_line debug diff_output line d st
       = (Ok (Dict.set k (LcInt z) d), st).
Proof.
  unfold diff_stat_line.
  destruct (negb (Str.contains "|" line)); [right; left; reflexivity|].
  destruct (Str.split "|" None line) as [|a [|b [|c l]]];
    try (right; left; reflexivity).
  unfold error_recovery, line_changes, bind.
  destruct (change_count b) as [z|].
  - right. right. now exists (Str.strip a), z.
  - left. reflexivity.
Qed.

(** The sentinel is never stored: a mapping that the loop returns holds
    integers only, and the loop has had no effect. *)
Lemma diff_stat_loop_outcome (debug : bool) (diff_output : string)
  (lines : list string) :
  forall d st,
    Forall (fun kv => snd kv <> LcNaN) d ->
    diff_stat_loop debug diff_output lines d st = (Raise TypeError, st)
    \/ exists d',
         diff_stat_loop debug diff_output lines d st = (Ok d', st)
         /\ Forall (fun kv => snd kv <> LcNaN) d'.
Proof.
  induction lines as [|line lines IH]; intros d st Hd.
  - right. now exists d.
  - cbn [diff_stat_loop]. unfold bind.
    destruct (diff_stat_line_outcome debug diff_output line d st)
      as [E|[E|(k & z & E)]]; rewrite E.
    + now left.
    + now apply IH.
    + apply IH. clear E IH.
      induction d as [|[k' v'] d IHd]; cbn [Dict.set].
      * constructor; [discriminate|constructor].
      * inversion Hd; subst. destruct (String.eqb k k').
        -- constructor; [discriminate|assumption].
        -- constructor; [assumption|now apply IHd].
Qed.

(** C3, at the input [" setup.py | Unmerged"] followed by a well-formed
    line: no sentinel is stored and the next line is not parsed, the parser
    raises [TypeError] and leaves the console as it was (nothing is
    logged), with debug mode on or off. *)
Theorem malformed_diff_stat_aborts (debug : bool) (st : state) :
  parse_diff_stat debug
    (mkProcess 0 (" setup.py | Unmerged" ++ newline
                    ++ " util.py | 3 ++-" ++ newline)) st
  = (Raise TypeError, st)
  /\ fst (git_status_files (unmerged_world 0) "/wd/a" false debug
            (initial_state "/"))
     = Raise TypeError.
Proof.
  split.
  - reflexivity.
  - destruct debug; vm_compute; reflexivity.
Qed.

(* ===================================================================== *)
(** ** Failing subprocesses *)
(* ===================================================================== *)

(** [git diff] exits non-zero: the failure is printed, the result is
    empty, and the directory is restored. *)
Lemma git_diff_body_failed (w : world) (repo_path : string) (st : state) :
  let target := path_join (cwd st) repo_path in
  isdir w target = true ->
  isdir w (path_join target (cwd st)) = true ->
  returncode (run w target ["git"; "diff"]) <> 0 ->
  git_diff_body w repo_path st
  = (Ok [],
     mkState (path_join target (cwd st)) (verbosity st)
       (console st ++ [Run target ["git"; "diff"];
                       Print [Lit ("git diff failed for " ++ repo_path)]])
       (status_cache st) (diff_cache st) (remotes_cache st)).
Proof.
  intros target Ht Hb Hrc.
  unfold git_diff_body, bind, os_getcwd, os_chdir, try_finally,
    subprocess_run, bind, emit, ret, print, emit. fold target.
  rewrite Ht. state_simpl.
  apply Z.eqb_neq in Hrc. rewrite Hrc. cbn [negb].
  state_simpl.
  rewrite Hb. unfold set_cwd.
  state_simpl.
  now rewrite <- app_assoc.
Qed.

(** [git remote] exits non-zero: the failure is printed and the result is
    empty. *)
Lemma get_list_remotes_body_failed (w : world) (repo_path : string)
  (st : state) :
  let target := path_join (cwd st) repo_path in
  isdir w target = true ->
  returncode (run w target ["git"; "remote"]) <> 0 ->
  get_list_remotes_body w repo_path st
  = (Ok [],
     mkState target (verbosity st)
       (console st ++ [Run target ["git"; "remote"];
                       Print [Lit ("git remote failed for " ++ repo_path)]])
       (status_cache st) (diff_cache st) (remotes_cache st)).
Proof.
  intros target Ht Hrc.
  unfold get_list_remotes_body, bind, os_chdir, subprocess_run, bind, emit,
    ret, print, emit. fold target.
  rewrite Ht. state_simpl.
  apply Z.eqb_neq in Hrc. rewrite Hrc. cbn [negb].
  state_simpl.
  now rewrite <- app_assoc.
Qed.

(** [git status] exits non-zero and so does [git diff --stat] (the usual
    case: the directory is not a repository): the failure is printed and
    the result is empty. *)
Lemma git_status_files_body_failed (w : world) (repo_path : string)
  (show_untracked debug : bool) (st : state) :
  let target := path_join (cwd st) repo_path in
  isdir w target = true ->
  isdir w (path_join target (cwd st)) = true ->
  verbosity st < 1 ->
  returncode (run w target ["git"; "status"; "--porcelain"]) <> 0 ->
  returncode (run w target ["git"; "diff"; "--stat"]) <> 0 ->
  git_status_files_body w repo_path show_untracked debug st
  = (Ok [],
     mkState (path_join target (cwd st)) (verbosity st)
       (console st ++ [Run target ["git"; "status"; "--porcelain"];
                       Run target ["git"; "diff"; "--stat"];
                       Print [Lit ("git status failed for " ++ repo_path)]])
       (status_cache st) (diff_cache st) (remotes_cache st)).
Proof.
  intros target Ht Hb Hv Hrc Hrc2.
  unfold git_status_files_body, bind, os_getcwd, os_chdir, try_finally,
    msgout_v, msgout, subprocess_run, bind, emit, ret, print, emit,
    parse_diff_stat.
  fold target. rewrite Ht.
  state_simpl.
  replace (1 <=? verbosity st) with false by (symmetry; apply Z.leb_gt; lia).
  state_simpl.
  apply Z.eqb_neq in Hrc2. rewrite Hrc2. unfold ret.
  state_simpl.
  rewrite Hb. cbn [fst snd].
  apply Z.eqb_neq in Hrc. rewrite Hrc. cbn [negb]. unfold set_cwd.
  state_simpl.
  now rewrite <- !app_assoc.
Qed.

(** C6, at a repository where [git status] exits with 1 while
    [git diff --stat] succeeds and lists an unmerged file: the status query
    raises [TypeError] where an empty result was due, and [main] stops at
    this repository. *)
Theorem failed_status_with_unmerged_stat :
  fst (git_status_files (unmerged_world 1) "/wd/a" false false
         (initial_state "/"))
  = Raise TypeError
  /\ fst (main (unmerged_world 1) (plain_ns "status") (initial_state "/"))
     = Raise TypeError.
Proof. split; vm_compute; reflexivity. Qed.

(** The status action goes on after a repository whose git calls fail:
    [b] is not a repository, its failure is printed, and [a] is reported. *)
Example status_continues_after_failure :
  main demo_world (ns_both "status") (initial_state "/")
  = (Ok None,
     mkState "/wd" 0
       [Run "/wd/b" ["git"; "status"; "--porcelain"];
        Run "/wd/b" ["git"; "diff"; "--stat"];
        Print [Lit "git status failed for /wd/b"];
        Run "/wd/a" ["git"; "status"; "--porcelain"];
        Run "/wd/a" ["git"; "diff"; "--stat"];
        Print [Lit "Status for Repo: a"];
        Print [Lit "  M "; Lit delta_sign; Left4 (LcInt 2);
               Lit (tab ++ "setup.py")];
        Print [Lit "  M "; Lit delta_sign; Left4 (LcInt 100);
               Lit (tab ++ "logo.png")]]
       [("/wd/a", false, false,
         [("M", "setup.py", LcInt 2); ("M", "logo.png", LcInt 100)]);
        ("/wd/b", false, false, [])]
       [] []).
Proof. vm_compute. reflexivity. Qed.

(** The diff action does the same. *)
Example diff_continues_after_failure :
  fst (main demo_world (ns_both "diff") (initial_state "/")) = Ok None
  /\ console (snd (main demo_world (ns_both "diff") (initial_state "/")))
     = [Run "/wd/b" ["git"; "diff"];
        Print [Lit "git diff failed for /wd/b"];
        Run "/wd/a" ["git"; "diff"]].
Proof. split; vm_compute; reflexivity. Qed.

(* ===================================================================== *)
(** ** Invalid flag combinations *)
(* ===================================================================== *)

(** X14: [--next] with a non-empty [--repo] list: the message is printed
    and [main] returns 1; the process is in the working directory, the
    verbosity is set, and no git command has run. *)
Lemma main_next_and_repo (w : world) (ns : Namespace) (r : string)
  (rs : list string) (st : state) :
  let target := path_join (cwd st) (ns_working_dir ns) in
  isdir w target = true ->
  ns_next ns = true ->
  ns_repo ns = Some (r :: rs) ->
  main w ns st
  = (Ok (Some 1),
     mkState target (ns_verbosity ns)
       (console st ++ [Print [Lit "Cannot specify both --next and --repo"]])
       (status_cache st) (diff_cache st) (remotes_cache st)).
Proof.
  intros target Ht Hn Hr.
  unfold main, bind, VerbosityLogger_setVerbosity, os_chdir,
    load_rack_config, bind, os_path_exists, ret.
  state_simpl.
  fold target. rewrite Ht, Hn, Hr.
  cbn [cwd set_verbosity set_cwd verbosity console status_cache diff_cache
       remotes_cache andb].
  destruct (negb (exists_ w (path_join target
                               (path_join (ns_working_dir ns) ".rack.yaml"))));
    reflexivity.
Qed.

(** C5, at [list -O], at [list -O -N -s] and at [-C list -O]: [main] does
    not return 1, it raises [TypeError]; in the third case the status of the
    repository [a] has been queried before. *)
Theorem list_flag_checks_raise :
  main demo_world ns_list_only (initial_state "/")
  = (Raise TypeError, mkState "/wd" 0 [] [] [] [])
  /\ main demo_world ns_list_only_status (initial_state "/")
     = (Raise TypeError, mkState "/wd" 0 [] [] [] [])
  /\ main demo_world ns_changed_list_only (initial_state "/")
     = (Raise TypeError,
        mkState "/wd" 0
          [Run "/wd/a" ["git"; "status"; "--porcelain"];
           Run "/wd/a" ["git"; "diff"; "--stat"]]
          [("/wd/a", false, false,
            [("M", "setup.py", LcInt 2); ("M", "logo.png", LcInt 100)])]
          [] []).
Proof. repeat split; vm_compute; reflexivity. Qed.

(* ===================================================================== *)
(** ** The diff parser *)
(* ===================================================================== *)

Lemma dict_get_set_same {V : Type} (k : string) (v : V) (d : Dict.t V) :
  Dict.get k (Dict.set k v d) = Some v.
Proof.
  induction d as [|[k' v'] d IH]; simpl.
  - now rewrite String.eqb_refl.
  - destruct (String.eqb k k') eqn:E; simpl.
    + now rewrite String.eqb_refl.
    + now rewrite E.
Qed.

Lemma dict_set_set {V : Type} (k : string) (v1 v2 : V) (d : Dict.t V) :
  Dict.set k v2 (Dict.set k v1 d) = Dict.set k v2 d.
Proof.
  induction d as [|[k' v'] d IH]; simpl.
  - now rewrite String.eqb_refl.
  - destruct (String.eqb k k') eqn:E; simpl.
    + now rewrite String.eqb_refl.
    + now rewrite E, IH.
Qed.

Lemma dict_set_get {V : Type} (k : string) (v : V) (d : Dict.t V) :
  Dict.get k d = Some v -> Dict.set k v d = d.
Proof.
  induction d as [|[k' v'] d IH]; simpl; [discriminate|].
  destruct (String.eqb k k') eqn:E.
  - intros H. apply String.eqb_eq in E. inversion H. now subst.
  - intros H. now rewrite (IH H).
Qed.

(** A new key goes to the end. *)
Lemma dict_set_new {V : Type} (k : string) (v : V) (d : Dict.t V) :
  Dict.get k d = None -> Dict.set k v d = (d ++ [(k, v)])%list.
Proof.
  induction d as [|[k' v'] d IH]; simpl; [reflexivity|].
  destruct (String.eqb k k'); [discriminate|].
  intros H. now rewrite (IH H).
Qed.

Lemma dict_get_app_other {V : Type} (k k' : string) (v : V) (d : Dict.t V) :
  k <> k' -> Dict.get k (d ++ [(k', v)])%list = Dict.get k d.
Proof.
  intros Hne. induction d as [|[k2 v2] d IH]; simpl.
  - apply String.eqb_neq in Hne. now rewrite Hne.
  - now rewrite IH.
Qed.

Lemma starts_with_space (line : string) (c : ascii) :
  Str.startswith (String c " ") line = true -> Str.contains " " line = true.
Proof.
  destruct line as [|a [|b line]]; cbn [Str.startswith Str.contains];
    try discriminate.
  - now rewrite andb_false_r.
  - intros H. apply andb_true_iff in H. destruct H as [_ H].
    apply andb_true_iff in H. destruct H as [H _].
    rewrite H. now rewrite orb_true_r.
Qed.

(** A line with a space splits in two at its first space. *)
Lemma split_once_second (line : string) :
  Str.contains " " line = true ->
  exists rest, nth_error (Str.split " " (Some 1%nat) line) 1 = Some rest.
Proof.
  induction line as [|c line IH]; cbn [Str.contains Str.split];
    [discriminate|].
  rewrite (Ascii.eqb_sym c " ").
  destruct (Ascii.eqb " " c) eqn:E; cbn [orb andb].
  - intros _. rewrite split_limit_zero. now exists line.
  - intros H. destruct (IH H) as [rest Hr].
    destruct (Str.split " " (Some 1%nat) line) as [|h t]; [discriminate|].
    now exists rest.
Qed.

Lemma marker_has_space (line m : string) :
  body_line line -> diff_marker line = Some m ->
  Str.contains " " line = true.
Proof.
  intros [_ Hat]. unfold diff_marker.
  destruct (Str.startswith "@@" line) eqn:E1; [intros _; now apply Hat|].
  destruct (Str.startswith "+ " line) eqn:E2;
    [intros _; now apply (starts_with_space line "+")|].
  destruct (Str.startswith "- " line) eqn:E3;
    [intros _; now apply (starts_with_space line "-")|].
  discriminate.
Qed.

(** The lines of one file section are appended, in order, to the entries of
    the current file. *)
Lemma git_diff_loop_body (body : list string) :
  Forall body_line body ->
  forall rest d f entries,
    Dict.get f d = Some entries ->
    git_diff_loop (body ++ rest) d (Some f)
    = git_diff_loop rest
        (Dict.set f (entries ++ section_entries body)%list d) (Some f).
Proof.
  induction 1 as [|line body Hl Hb IH]; intros rest d f entries Hg.
  - simpl. now rewrite app_nil_r, (dict_set_get _ _ _ Hg).
  - cbn [app git_diff_loop]. destruct Hl as [Hh Hat].
    unfold is_header in Hh. rewrite Hh.
    unfold section_entries. cbn [flat_map]. unfold diff_entry at 1.
    destruct (diff_marker line) as [m|] eqn:Em.
    + destruct (split_once_second line
                  (marker_has_space line m (conj Hh Hat) Em)) as [r Hr].
      unfold diff_append. rewrite Hg, Hr.
      rewrite (IH rest _ f _ (dict_get_set_same _ _ _)).
      rewrite dict_set_set. cbn [app]. now rewrite <- app_assoc.
    + cbn [app]. now apply IH.
Qed.

Lemma git_diff_loop_sections (secs : list diff_section) :
  Forall section_ok secs ->
  NoDup (map sec_file secs) ->
  forall d current_file,
    (forall s, In s secs -> Dict.get (sec_file s) d = None) ->
    git_diff_loop (flat_map section_lines secs) d current_file
    = Ok (d ++ map (fun s => (sec_file s, section_entries (sec_body s))) secs)%list.
Proof.
  induction 1 as [|s secs Hs Hsecs IH]; intros Hnd d cur Hfresh.
  - simpl. now rewrite app_nil_r.
  - cbn [flat_map section_lines app map git_diff_loop].
    destruct Hs as (Hh & Hf & Hb). unfold is_header in Hh. rewrite Hh.
    unfold header_file in Hf. rewrite Hf.
    inversion Hnd as [|x l Hnotin Hnd']; subst.
    rewrite (dict_set_new _ _ _ (Hfresh s (or_introl eq_refl))).
    assert (G : Dict.get (sec_file s) (d ++ [(sec_file s, [])])%list = Some []).
    { rewrite <- (dict_set_new _ _ _ (Hfresh s (or_introl eq_refl))).
      apply dict_get_set_same. }
    rewrite (git_diff_loop_body _ Hb _ _ _ _ G). cbn [app].
    rewrite <- (dict_set_new _ [] _ (Hfresh s (or_introl eq_refl))).
    rewrite dict_set_set.
    rewrite (dict_set_new _ _ _ (Hfresh s (or_introl eq_refl))).
    rewrite (IH Hnd').
    + now rewrite <- app_assoc.
    + intros s' Hin. rewrite dict_get_app_other.
      * apply Hfresh. now right.
      * intros E. apply Hnotin. rewrite <- E. now apply in_map.
Qed.

Lemma git_diff_loop_preamble (pre : list string) :
  Forall plain_line pre ->
  forall rest d current_file,
    git_diff_loop (pre ++ rest) d current_file
    = git_diff_loop rest d current_file.
Proof.
  induction 1 as [|line pre [Hh Hm] Hp IH]; intros rest d cur;
    [reflexivity|].
  cbn [app git_diff_loop]. unfold is_header in Hh. rewrite Hh, Hm. apply IH.
Qed.

Lemma diff_entry_of (m : string) (c : ascii) (t : string) :
  diff_marker (String c (String " " t)) = Some m ->
  diff_entry (String c (String " " t)) = [(m, Str.strip t)].
Proof.
  intros Hm. unfold diff_entry. rewrite Hm.
  destruct (Ascii.eqb c " ") eqn:E.
  - apply Ascii.eqb_eq in E. subst c. discriminate.
  - change (String c (String " " t)) with (String c "" ++ String " " t).
    rewrite split_once; [reflexivity|].
    cbn [Str.contains]. now rewrite Ascii.eqb_sym, E.
Qed.

(** What the parser does with a diff made of file sections whose headers
    have different third fields: it returns one entry list per header, in
    the order of the sections; the list holds, in the order of the input,
    one entry per line of the section that starts with ["@@"] (marker
    ['@']), with ["+ "] (marker ['+']) or with ["- "] (marker ['-']), the
    text being the stripped remainder after the first space; every other
    line is passed over. *)
Theorem git_diff_records_sections (preamble : list string)
  (secs : list diff_section) :
  Forall plain_line preamble ->
  Forall section_ok secs ->
  NoDup (map sec_file secs) ->
  git_diff_loop (preamble ++ flat_map section_lines secs) [] None
  = Ok (map (fun s => (sec_file s, section_entries (sec_body s))) secs)
  /\ (forall t, diff_entry ("@@ " ++ t) = [("@", Str.strip t)])
  /\ (forall t, diff_entry ("+ " ++ t) = [("+", Str.strip t)])
  /\ (forall t, diff_entry ("- " ++ t) = [("-", Str.strip t)])
  /\ (forall line, diff_marker line = None -> diff_entry line = []).
Proof.
  intros Hp Hs Hnd. split; [|split; [|split; [|split]]].
  - rewrite (git_diff_loop_preamble _ Hp).
    now rewrite (git_diff_loop_sections _ Hs Hnd [] None) by reflexivity.
  - intros t. unfold diff_entry.
    change (diff_marker ("@@ " ++ t)) with (Some "@").
    change ("@@ " ++ t) with ("@@" ++ String " " t).
    now rewrite split_once by reflexivity.
  - intros t. now apply diff_entry_of.
  - intros t. now apply diff_entry_of.
  - intros line H. unfold diff_entry. now rewrite H.
Qed.

Lemma git_diff_records_sections_witness :
  (Forall plain_line [] /\ Forall section_ok two_file_diff
   /\ NoDup (map sec_file two_file_diff))
  /\ git_diff_loop (flat_map section_lines two_file_diff) [] None
     = Ok [("a/setup.py",
            [("@", "-13,7 +13,7 @@ with open(os.path.join(_project_root, 'README.md'))");
             ("-", "version='0.1.5',");
             ("+", "version='0.1.7',")]);
           ("a/README.md",
            [("@", "-1,2 +1,3 @@");
             ("+", "* a new item")])].
Proof.
  assert (B : forall l, is_header l = false ->
                        Str.contains " " l = true -> body_line l).
  { intros l H1 H2. split; [exact H1|intros _; exact H2]. }
  assert (B' : forall l, is_header l = false ->
                         Str.startswith "@@" l = false -> body_line l).
  { intros l H1 H2. split; [exact H1|]. rewrite H2. discriminate. }
  assert (Hs : Forall section_ok two_file_diff).
  { repeat constructor;
      first [ apply B; reflexivity | apply B'; reflexivity ]. }
  assert (Hn : NoDup (map sec_file two_file_diff)).
  { repeat constructor; simpl; intuition discriminate. }
  split; [repeat split; [constructor|exact Hs|exact Hn]|].
  exact (proj1 (git_diff_records_sections [] two_file_diff
                  (Forall_nil _) Hs Hn)).
Defined.

(** C2, at a diff of one file with the hunk lines ["-old line"] and
    ["+new line"], as git prints a removed and an added line whose text
    does not start with a space: the parser tests [startswith("- ")] and
    [startswith("+ ")], so neither line is recorded; the entry list of the
    file holds the hunk header only, and no entry with the marker ['+'] or
    ['-'] exists. *)
Lemma added_line_without_space_dropped :
  git_diff_loop
    ["diff --git a/f b/f"; "@@ -1 +1 @@"; "-old line"; "+new line"] [] None
  = Ok [("a/f", [("@", "-1 +1 @@")])]
  /\ ~ (exists d entries t,
          git_diff_loop
            ["diff --git a/f b/f"; "@@ -1 +1 @@"; "-old line"; "+new line"]
            [] None = Ok d
          /\ Dict.get "a/f" d = Some entries
          /\ (In ("+", t) entries \/ In ("-", t) entries)).
Proof.
  split; [reflexivity|].
  intros (d & entries & t & Hd & Hg & Hin).
  change (Ok [("a/f", [("@", "-1 +1 @@")])] = Ok d) in Hd.
  inversion Hd; subst d. simpl in Hg. inversion Hg; subst entries.
  simpl in Hin. destruct Hin as [[H|[]]|[H|[]]]; discriminate.
Qed.

Lemma marker_not_header (line m : string) :
  diff_marker line = Some m -> is_header line = false.
Proof.
  destruct line as [|c line]; [discriminate|].
  unfold is_header. cbn [Str.startswith].
  destruct (Ascii.eqb "d" c) eqn:E; [|reflexivity].
  apply Ascii.eqb_eq in E. subst c. discriminate.
Qed.

(** Before the first file header every recognised line ends the loop with
    [KeyError]. *)
Lemma git_diff_loop_headless (pre : list string) :
  Forall (fun l => is_header l = false) pre ->
  forall line post,
    diff_marker line <> None ->
    git_diff_loop (pre ++ line :: post) [] None = Raise KeyError.
Proof.
  induction 1 as [|l pre Hl Hp IH]; intros line post Hm.
  - cbn [app git_diff_loop].
    destruct (diff_marker line) as [m|] eqn:E; [|contradiction].
    apply marker_not_header in E as Hh. unfold is_header in Hh.
    now rewrite Hh.
  - cbn [app git_diff_loop]. unfold is_header in Hl. rewrite Hl.
    destruct (diff_marker l); [reflexivity|]. now apply IH.
Qed.

(** C8: when the text of [git diff] has a line that starts with ["@@"],
    ["+ "] or ["- "] before any ["diff --git"] line, [git_diff] raises
    [KeyError]: nothing handles it, the line is not ignored. *)
Theorem git_diff_headless_raises (w : world) (repo_path : string)
  (st : state) (pre : list string) (line : string) (post : list string) :
  let target := path_join (cwd st) repo_path in
  isdir w target = true ->
  isdir w (path_join target (cwd st)) = true ->
  Lru.find String.eqb repo_path (diff_cache st) = None ->
  returncode (run w target ["git"; "diff"]) = 0 ->
  Str.splitlines (stdout (run w target ["git"; "diff"]))
  = (pre ++ line :: post)%list ->
  Forall (fun l => Str.startswith "diff --git" l = false) pre ->
  (Str.startswith "@@" line = true \/ Str.startswith "+ " line = true
   \/ Str.startswith "- " line = true) ->
  fst (git_diff w repo_path st) = Raise KeyError
  /\ git_diff_loop (pre ++ line :: post) [] None = Raise KeyError.
Proof.
  intros target Ht Hb Hc Hrc Hl Hpre Hline.
  assert (Hm : diff_marker line <> None).
  { unfold diff_marker.
    destruct (Str.startswith "@@" line); [discriminate|].
    destruct (Str.startswith "+ " line); [discriminate|].
    destruct (Str.startswith "- " line); [discriminate|].
    destruct Hline as [H|[H|H]]; discriminate. }
  pose proof (git_diff_loop_headless pre Hpre line post Hm) as L.
  split; [|exact L].
  unfold git_diff, Lru.cached. rewrite Hc.
  unfold git_diff_body, bind, os_getcwd, os_chdir, try_finally,
    subprocess_run, bind, emit, ret, lift. fold target.
  rewrite Ht.
  state_simpl.
  rewrite Hrc. cbn [Z.eqb negb]. rewrite Hl, L.
  state_simpl.
  now rewrite Hb.
Qed.

Lemma git_diff_headless_raises_witness :
  fst (git_diff headless_world "/wd/a" (initial_state "/")) = Raise KeyError.
Proof.
  apply (git_diff_headless_raises headless_world "/wd/a" (initial_state "/")
           ["index 21d76d2..44df869 100644"]
           "@@ -13,7 +13,7 @@ setup("
           ["-    version='0.1.5',"; "+    version='0.1.7',"]).
  - reflexivity.
  - reflexivity.
  - reflexivity.
  - reflexivity.
  - reflexivity.
  - repeat constructor.
  - left. reflexivity.
Defined.

(* ===================================================================== *)
(** ** The status listing *)
(* ===================================================================== *)

(** The parser splits at the first space of the stripped line. *)
Lemma status_fields_at_first_space (line code path : string) :
  Str.strip line = code ++ String " " path ->
  Str.contains " " code = false ->
  status_fields line = [code; path].
Proof.
  intros Hs Hc. unfold status_fields. rewrite Hs. now apply split_once.
Qed.

Example status_fields_unstaged :
  status_fields " M setup.py" = ["M"; "setup.py"].
Proof. reflexivity. Qed.

(** C1, at the line of the specification, [" M  setup.py"], and at the
    line git prints for a staged modification, ["M  setup.py"]: the path of
    the record is [" setup.py"], with the second space of the line in
    front, and the change count is looked up under that path. *)
Theorem status_path_keeps_space (show_untracked : bool)
  (diff_stat : Dict.t line_count) :
  status_records show_untracked diff_stat (map status_fields [" M  setup.py"])
  = Ok [("M", " setup.py",
         match Dict.get " setup.py" diff_stat with
         | Some lc => lc
         | None => LcInt 0
         end)]
  /\ status_records show_untracked diff_stat
       (map status_fields ["M  setup.py"])
     = Ok [("M", " setup.py",
            match Dict.get " setup.py" diff_stat with
            | Some lc => lc
            | None => LcInt 0
            end)]
  /\ " setup.py" <> "setup.py".
Proof.
  repeat split; try discriminate; destruct show_untracked; reflexivity.
Qed.

Lemma split_once_two (sep : ascii) (s : string) :
  Str.contains sep s = true ->
  exists a b, Str.split sep (Some 1%nat) s = [a; b].
Proof.
  induction s as [|c s IH]; cbn [Str.contains Str.split]; [discriminate|].
  rewrite (Ascii.eqb_sym c sep).
  destruct (Ascii.eqb sep c) eqn:E; cbn [orb andb].
  - intros _. rewrite split_limit_zero. now exists EmptyString, s.
  - intros H. destruct (IH H) as (a & b & Hab). rewrite Hab.
    now exists (String c a), b.
Qed.

(** C10: when every line of the short-status listing has its two fields,
    the list comprehension returns its records, and a file that has no
    entry in the diff-stat mapping gets the change count [0], an integer
    and not the NaN sentinel; this holds for every file of the listing that
    is reported (all of them, or all but the untracked ones). *)
Theorem missing_diff_stat_is_zero (show_untracked : bool)
  (diff_stat : Dict.t line_count) (lines : list string) :
  Forall (fun line => Str.contains " " (Str.strip line) = true) lines ->
  exists records,
    status_records show_untracked diff_stat (map status_fields lines)
    = Ok records
    /\ (forall line status file_path,
           In line lines ->
           status_fields line = [status; file_path] ->
           show_untracked = true \/ status <> "??" ->
           Dict.get file_path diff_stat = None ->
           In (if String.eqb status "??" then "U" else status,
               file_path, LcInt 0) records)
    /\ (forall status file_path delta,
           In (status, file_path, delta) records ->
           Dict.get file_path diff_stat = None ->
           delta = LcInt 0 /\ delta <> LcNaN).
Proof.
  induction 1 as [|line lines Hl Hls IH].
  - exists []. split; [reflexivity|]. split; intros; contradiction.
  - destruct IH as (records & Hr & Hin & Hz).
    destruct (split_once_two " " _ Hl) as (s & p & Hsp).
    fold (status_fields line) in Hsp.
    cbn [map status_records]. rewrite Hsp, Hr.
    destruct (show_untracked || negb (String.eqb s "??")) eqn:Ek.
    + eexists. split; [reflexivity|]. split.
      * intros l st fp [->|Hl'] Hf Hk Hg.
        -- rewrite Hsp in Hf. inversion Hf; subst. rewrite Hg. now left.
        -- right. now apply (Hin l).
      * intros st fp dl [He|Hi] Hg.
        -- inversion He; subst. rewrite Hg. split; [reflexivity|discriminate].
        -- now apply (Hz st fp).
    + exists records. split; [reflexivity|]. split.
      * intros l st fp [->|Hl'] Hf Hk Hg.
        -- rewrite Hsp in Hf. inversion Hf; subst.
           apply orb_false_elim in Ek. destruct Ek as [Eu Es].
           destruct Hk as [Hk|Hk]; [congruence|].
           apply negb_false_iff in Es. apply String.eqb_eq in Es.
           contradiction.
        -- now apply (Hin l).
      * exact Hz.
Qed.

Lemma missing_diff_stat_is_zero_witness :
  exists records,
    status_records true [("setup.py", LcInt 2)]
      (map status_fields [" M setup.py"; "?? new.txt"])
    = Ok records
    /\ In ("U", "new.txt", LcInt 0) records.
Proof.
  destruct (missing_diff_stat_is_zero true [("setup.py", LcInt 2)]
              [" M setup.py"; "?? new.txt"]) as (records & Hr & Hin & _).
  - repeat constructor.
  - exists records. split; [exact Hr|].
    apply (Hin "?? new.txt" "??" "new.txt").
    + right. left. reflexivity.
    + reflexivity.
    + left. reflexivity.
    + reflexivity.
Defined.

(** The whole query on the example repository: the binary file is
    reported with the difference of its sizes, and the untracked file, which
    has no diff-stat entry, with the change count [0]. *)
Example git_status_files_untracked :
  fst (git_status_files demo_world "/wd/a" true false (initial_state "/"))
  = Ok [("M", "setup.py", LcInt 2); ("M", "logo.png", LcInt 100);
        ("U", "new.txt", LcInt 0)].
Proof. vm_compute. reflexivity. Qed.

(* ===================================================================== *)
(** ** The repository enumeration *)
(* ===================================================================== *)

Lemma scan_directories_filter (w : world) (want_git : bool)
  (working_dir : string) (names : list string) (st : state) :
  scan_directories w want_git working_dir names st
  = (Ok (filter
           (fun repo =>
              let sub := path_join (cwd st) (path_join working_dir repo) in
              isdir w sub
              && Bool.eqb (existsb (String.eqb ".git") (listdir w sub)) want_git)
           names),
     st).
Proof.
  induction names as [|repo names IH]; [reflexivity|].
  cbn [scan_directories filter]. unfold bind at 1. unfold os_path_isdir.
  destruct (isdir w (path_join (cwd st) (path_join working_dir repo))) eqn:E.
  - unfold bind at 1. unfold bind at 1. unfold os_listdir. rewrite E.
    unfold ret at 1. unfold bind. rewrite IH. cbn [andb].
    now destruct (Bool.eqb _ want_git).
  - unfold bind at 1. unfold ret at 1. unfold bind. rewrite IH. reflexivity.
Qed.

Lemma existsb_git (entries : list string) :
  existsb (String.eqb ".git") entries = true <-> In ".git" entries.
Proof.
  rewrite existsb_exists. split.
  - intros (x & Hin & He). apply String.eqb_eq in He. now subst.
  - intros H. exists ".git". split; [exact H|apply String.eqb_refl].
Qed.

(** The choice of the repositories, seen from the directory the process
    is in: without a [-r] list and without a [repos] entry in the
    configuration, the entries of the listed directory that are
    directories and have a [".git"] entry, in the order of the listing; a
    non-empty [-r] list, and otherwise the list of the configuration, is
    taken as it is; an empty configuration file is a [TypeError]. *)
Lemma select_repos_from_cwd (w : world) (ns : Namespace)
  (config : Dict.t (list string)) (st : state) :
  let root := path_join (cwd st) (ns_working_dir ns) in
  let sub := fun repo =>
               path_join (cwd st) (path_join (ns_working_dir ns) repo) in
  isdir w root = true ->
  ((ns_repo ns = None \/ ns_repo ns = Some []) ->
   Dict.get "repos" config = None ->
   exists repos,
     select_repos w ns (YMap config) st = (Ok repos, st)
     /\ repos
        = filter (fun repo =>
                    isdir w (sub repo)
                    && existsb (String.eqb ".git") (listdir w (sub repo)))
            (listdir w root)
     /\ (forall repo,
            In repo repos <->
            In repo (listdir w root) /\ isdir w (sub repo) = true
            /\ In ".git" (listdir w (sub repo))))
  /\ (forall r rs rack_config,
         ns_repo ns = Some (r :: rs) ->
         select_repos w ns rack_config st = (Ok (r :: rs), st))
  /\ (forall configured,
         ns_repo ns = None \/ ns_repo ns = Some [] ->
         Dict.get "repos" config = Some configured ->
         select_repos w ns (YMap config) st = (Ok configured, st))
  /\ (ns_repo ns = None \/ ns_repo ns = Some [] ->
      select_repos w ns YNone st = (Raise TypeError, st)).
Proof.
  intros root sub Hroot. split; [|split; [|split]].
  - intros Hr Hc. eexists. split; [|split; [reflexivity|]].
    + unfold select_repos.
      destruct Hr as [-> | ->]; rewrite Hc; unfold bind, os_listdir;
        fold root; rewrite Hroot, scan_directories_filter;
        f_equal; f_equal; apply filter_ext; intros a; cbv zeta;
        fold (sub a); destruct (existsb _ _); reflexivity.
    + intros repo. rewrite filter_In, andb_true_iff, existsb_git. tauto.
  - intros r rs rc Hr. unfold select_repos. now rewrite Hr.
  - intros configured Hr Hc. unfold select_repos.
    destruct Hr as [-> | ->]; now rewrite Hc.
  - intros Hr. unfold select_repos. destruct Hr as [-> | ->]; reflexivity.
Qed.

(** C7, at [rack -d wd list] started in [/] (a relative working directory)
    and at an empty [.rack.yaml]: [main] changes into the working directory
    and then lists it by the same relative name, so the directory it
    enumerates is [/wd/wd]; where [/wd] holds the repository [a] and
    [/wd/wd] the repository [z] the table shows [z]; where [/wd/wd] does
    not exist [main] raises [OSError]; and with an empty configuration
    file, which has no [repos] entry, [main] raises [TypeError] where the
    repositories of the working directory were due. *)
Theorem enumeration_lists_wrong_directory :
  filter (fun repo =>
            isdir nested_world (path_join "/wd" repo)
            && existsb (String.eqb ".git")
                 (listdir nested_world (path_join "/wd" repo)))
    (listdir nested_world "/wd")
  = ["a"]
  /\ select_repos nested_world ns_relative_list (YMap [])
       (mkState "/wd" 0 [] [] [] [])
     = (Ok ["z"], mkState "/wd" 0 [] [] [] [])
  /\ main nested_world ns_relative_list (initial_state "/")
     = (Ok None,
        mkState "/wd" 0
          [ConsolePrint ["changes"; "folder"] [([""; "z"], "row-even")]]
          [] [] [])
  /\ main demo_world ns_relative_list (initial_state "/")
     = (Raise OSError, mkState "/wd" 0 [] [] [] [])
  /\ main empty_config_world (plain_ns "list") (initial_state "/")
     = (Raise TypeError, mkState "/wd" 0 [] [] [] []).
Proof. repeat split; vm_compute; reflexivity. Qed.

(** The table of [list] on the example directory has the repository
    only. *)
Example list_shows_repositories_only :
  console (snd (main demo_world (plain_ns "list") (initial_state "/")))
  = [ConsolePrint ["changes"; "folder"] [([""; "a"], "row-even")]].
Proof. vm_compute. reflexivity. Qed.

(* ===================================================================== *)
(** ** Further properties of the diff-stat parser *)
(* ===================================================================== *)

(** X1: the diff-stat parser either raises [TypeError] or returns a mapping
    that holds integers only, and in both cases it has printed, logged and
    changed nothing: the NaN sentinel of the source is never stored. *)
Theorem parse_diff_stat_outcome (debug : bool)
  (diff_stat_out : CompletedProcess) (st : state) :
  parse_diff_stat debug diff_stat_out st = (Raise TypeError, st)
  \/ exists d,
       parse_diff_stat debug diff_stat_out st = (Ok d, st)
       /\ Forall (fun kv => snd kv <> LcNaN) d.
Proof.
  unfold parse_diff_stat.
  destruct (returncode diff_stat_out =? 0).
  - apply diff_stat_loop_outcome. constructor.
  - right. exists []. split; [reflexivity|constructor].
Qed.

(** The parser leaves the state as it found it. *)
Lemma parse_diff_stat_state (debug : bool)
  (diff_stat_out : CompletedProcess) (st : state) :
  snd (parse_diff_stat debug diff_stat_out st) = st.
Proof.
  unfold parse_diff_stat.
  destruct (returncode diff_stat_out =? 0); [|reflexivity].
  destruct (diff_stat_loop_outcome debug (stdout diff_stat_out)
              (Str.splitlines (stdout diff_stat_out)) [] st (Forall_nil _))
    as [E|(d & E & _)]; now rewrite E.
Qed.

(** The function under [@lru_cache] does not touch the table of its own
    cache. *)
Lemma queries_cache_kept (w : world) (repo_path : string)
  (show_untracked debug : bool) (st : state) :
  status_cache (snd (git_status_files_body w repo_path show_untracked debug st))
  = status_cache st.
Proof.
  unfold git_status_files_body.
  unfold bind at 1. unfold os_getcwd. unfold bind at 1. unfold os_chdir at 1.
  destruct (isdir w (path_join (cwd st) repo_path)); [|reflexivity].
  unfold bind at 1. unfold try_finally.
  unfold bind at 1. unfold msgout_v, msgout.
  match goal with
  | |- context [if ?c then print ?t ?s else (Ok tt, ?s)] =>
      assert (E : exists s1, (if c then print t s else (Ok tt, s))
                             = (Ok tt, s1)
                             /\ status_cache s1 = status_cache st)
        by (destruct c; eexists; split; reflexivity);
        destruct E as (s1 & E & C1); rewrite E
  end.
  unfold bind, subprocess_run, bind, emit, ret. state_simpl.
  match goal with
  | |- context [parse_diff_stat ?g ?p ?s0] =>
      pose proof (parse_diff_stat_state g p s0) as P;
        destruct (parse_diff_stat g p s0) as [[ds|e] s2]
  end; cbn [snd] in P; subst s2; unfold os_chdir; state_simpl;
    destruct (isdir w (path_join (cwd s1) (cwd st))); cbn [fst snd];
    try (destruct (negb (returncode _ =? 0))); unfold print, emit, lift;
    state_simpl; exact C1.
Qed.

Lemma bind_ext_r {A B : Type} (m : M A) (f g : A -> M B) (st : state) :
  (forall a st', f a st' = g a st') -> bind m f st = bind m g st.
Proof.
  intros H. unfold bind. destruct (m st) as [[a|e] st']; [apply H|reflexivity].
Qed.

Lemma bind_ext_l {A B : Type} (m1 m2 : M A) (f : A -> M B) (st : state) :
  m1 st = m2 st -> bind m1 f st = bind m2 f st.
Proof. intros H. unfold bind. now rewrite H. Qed.

Lemma try_finally_ext {A : Type} (b1 b2 : M A) (fin : M unit) (st : state) :
  b1 st = b2 st -> try_finally b1 fin st = try_finally b2 fin st.
Proof. intros H. unfold try_finally. now rewrite H. Qed.

Lemma diff_stat_line_debug (diff_output line : string)
  (d : Dict.t line_count) (st : state) :
  diff_stat_line true diff_output line d st
  = diff_stat_line false diff_output line d st.
Proof.
  unfold diff_stat_line.
  destruct (negb (Str.contains "|" line)); [reflexivity|].
  destruct (Str.split "|" None line) as [|a [|b [|c l]]]; reflexivity.
Qed.

Lemma diff_stat_loop_debug (diff_output : string) (lines : list string) :
  forall d st,
    diff_stat_loop true diff_output lines d st
    = diff_stat_loop false diff_output lines d st.
Proof.
  induction lines as [|line lines IH]; intros d st; [reflexivity|].
  cbn [diff_stat_loop]. rewrite (bind_ext_l _ _ _ _ (diff_stat_line_debug _ _ _ _)).
  apply bind_ext_r. intros a st'. apply IH.
Qed.

(** The function under [@lru_cache] is the same for both values of the
    debug flag: the flag is only read after [recover] has returned, and
    [recover] never returns. *)
Lemma git_status_files_body_debug (w : world) (repo_path : string)
  (show_untracked : bool) (st : state) :
  git_status_files_body w repo_path show_untracked true st
  = git_status_files_body w repo_path show_untracked false st.
Proof.
  unfold git_status_files_body.
  apply bind_ext_r. intros return_dir st1.
  apply bind_ext_r. intros _ st2.
  apply bind_ext_l. apply try_finally_ext.
  apply bind_ext_r. intros _ st3.
  apply bind_ext_r. intros result st4.
  apply bind_ext_r. intros diff_stat_out st5.
  apply bind_ext_l. unfold parse_diff_stat.
  destruct (returncode diff_stat_out =? 0); [|reflexivity].
  apply diff_stat_loop_debug.
Qed.

(** X2: the debug flag changes nothing but the key of the cache.  When
    the status query is not answered from the cache (neither key is in the
    table), it gives with the flag on what it gives with the flag off: the
    same value or the same exception, the same console (the same git
    commands run, the same text printed), the same directory, verbosity and
    other tables; and when it raises, the same state.  Only the entry
    stored in the status cache carries the flag. *)
Theorem debug_flag_has_no_effect (w : world) (repo_path : string)
  (show_untracked : bool) (st : state) :
  Lru.find status_key_eqb (repo_path, show_untracked, true) (status_cache st)
  = None ->
  Lru.find status_key_eqb (repo_path, show_untracked, false) (status_cache st)
  = None ->
  let on := git_status_files w repo_path show_untracked true st in
  let off := git_status_files w repo_path show_untracked false st in
  fst on = fst off
  /\ console (snd on) = console (snd off)
  /\ cwd (snd on) = cwd (snd off)
  /\ verbosity (snd on) = verbosity (snd off)
  /\ diff_cache (snd on) = diff_cache (snd off)
  /\ remotes_cache (snd on) = remotes_cache (snd off)
  /\ (forall records,
         fst off = Ok records ->
         status_cache (snd on)
         = Lru.touch status_key_eqb (repo_path, show_untracked, true) records
             (status_cache st)
         /\ status_cache (snd off)
            = Lru.touch status_key_eqb (repo_path, show_untracked, false)
                records (status_cache st))
  /\ (forall e, fst off = Raise e -> snd on = snd off).
Proof.
  intros Hon Hoff on off. subst on off.
  unfold git_status_files, Lru.cached. rewrite Hon, Hoff.
  rewrite git_status_files_body_debug.
  pose proof (queries_cache_kept w repo_path show_untracked false st) as K.
  destruct (git_status_files_body w repo_path show_untracked false st)
    as [[v|e] st1]; cbn [fst snd] in *.
  - do 6 (split; [reflexivity|]). split.
    + intros records H. inversion H; subst.
      cbn [status_cache set_status_cache]. now rewrite K.
    + intros e H. discriminate.
  - do 6 (split; [reflexivity|]). split.
    + intros records H. discriminate.
    + reflexivity.
Qed.

Lemma debug_flag_has_no_effect_witness :
  fst (git_status_files demo_world "/wd/a" true true (initial_state "/"))
  = fst (git_status_files demo_world "/wd/a" true false (initial_state "/"))
  /\ console (snd (git_status_files demo_world "/wd/a" true true
                     (initial_state "/")))
     = console (snd (git_status_files demo_world "/wd/a" true false
                       (initial_state "/"))).
Proof.
  destruct (debug_flag_has_no_effect demo_world "/wd/a" true
              (initial_state "/") eq_refl eq_refl) as (H1 & H2 & _).
  split; [exact H1|exact H2].
Defined.

Lemma rstrip_app (a b : string) :
  Str.rstrip (a ++ b)
  = if Str.isempty (Str.rstrip b) then Str.rstrip a else a ++ Str.rstrip b.
Proof.
  induction a as [|c a IH]; cbn [append Str.rstrip].
  - destruct (Str.rstrip b); reflexivity.
  - rewrite IH. destruct (Str.isempty (Str.rstrip b)) eqn:E; [reflexivity|].
    destruct (a ++ Str.rstrip b) eqn:E2.
    + destruct a; [|discriminate]. cbn in E2. now rewrite E2 in E.
    + cbn [Str.isempty]. now rewrite andb_false_r.
Qed.

Lemma digit_lower_not_b (c : ascii) (d : Z) :
  Str.digit_of c = Some d -> Ascii.eqb "b" (Str.lower_char c) = false.
Proof.
  intros H. pose proof (digit_of_range _ _ H) as [R E].
  unfold Str.lower_char. cbv zeta.
  replace (65 <=? Str.code c) with false by (symmetry; apply Z.leb_gt; lia).
  replace (192 <=? Str.code c) with false by (symmetry; apply Z.leb_gt; lia).
  cbn [andb orb]. apply (digit_is_not _ _ _ H). right. vm_compute. reflexivity.
Qed.

Lemma change_count_plain (n : Z) (rest : string) :
  0 <= n < 10 ^ Str.int_max_str_digits ->
  change_count (" " ++ Str.of_int n ++ " " ++ rest) = Some n.
Proof.
  intros Hn. unfold change_count.
  destruct (digits_spec n (proj1 Hn)) as (A & N & _).
  rewrite <- (of_int_digits n (proj1 Hn)) in A, N.
  destruct (Str.of_int n) as [|c s] eqn:E; [contradiction|].
  assert (D : exists d, Str.digit_of c = Some d).
  { cbn [all_digits] in A.
    destruct (Str.digit_of c) as [d|]; [now exists d|discriminate]. }
  destruct D as [d D].
  assert (Sp : Str.code " " < 48 \/ 57 < Str.code " ")
    by (left; vm_compute; reflexivity).
  assert (NS : Str.contains " " (String c s) = false)
    by (now apply all_digits_without).
  assert (F : exists tail,
             Str.split " " None (Str.strip (" " ++ String c s ++ " " ++ rest))
             = String c s :: tail).
  { unfold Str.strip.
    change (Str.lstrip (" " ++ String c s ++ " " ++ rest))
      with (Str.lstrip (String c (s ++ " " ++ rest))).
    cbn [Str.lstrip]. rewrite (digit_not_space _ _ D).
    change (String c (s ++ " " ++ rest)) with (String c s ++ " " ++ rest).
    rewrite rstrip_app, (all_digits_rstrip _ A).
    destruct (Str.isempty (Str.rstrip (" " ++ rest))) eqn:Ee.
    - exists []. now apply split_without_sep.
    - change (" " ++ rest) with (String " " rest) in *.
      cbn [Str.rstrip] in *.
      destruct (Str.isspace " " && Str.isempty (Str.rstrip rest));
        [discriminate|].
      eexists. now apply split_at_first_sep. }
  destruct F as [tail F]. rewrite F. cbn [hd].
  cbn [Str.lower Str.startswith]. rewrite (digit_lower_not_b _ _ D).
  cbn [andb]. rewrite <- E. now apply int_of_int.
Qed.

(** X3: a diff-stat line [<path>| <n> <graph>] with a decimal count [n]
    records the integer [n] under the stripped path, whatever follows the
    count, and has no other effect. *)
Theorem diff_stat_plain_count (debug : bool) (diff_output file_path : string)
  (n : Z) (graph : string) (d : Dict.t line_count) (st : state) :
  Str.contains "|" file_path = false ->
  Str.contains "|" graph = false ->
  0 <= n < 10 ^ Str.int_max_str_digits ->
  diff_stat_line debug diff_output
    (file_path ++ "| " ++ Str.of_int n ++ " " ++ graph) d st
  = (Ok (Dict.set (Str.strip file_path) (LcInt n) d), st).
Proof.
  intros Hf Hg Hn.
  change (file_path ++ "| " ++ Str.of_int n ++ " " ++ graph)
    with (file_path ++ String "|" (" " ++ Str.of_int n ++ " " ++ graph)).
  apply diff_stat_line_parsed; [exact Hf| |now apply change_count_plain].
  assert (Bar : Str.code "|" < 48 \/ 57 < Str.code "|")
    by (right; vm_compute; reflexivity).
  change (" " ++ Str.of_int n ++ " " ++ graph)
    with (" " ++ (Str.of_int n ++ (" " ++ graph))).
  rewrite !contains_app, (of_int_without _ n), Hg by (lia || exact Bar).
  reflexivity.
Qed.

Lemma diff_stat_plain_count_witness :
  diff_stat_line false "" " setup.py | 12 ++++++------" [] (initial_state "/")
  = (Ok [("setup.py", LcInt 12)], initial_state "/").
Proof.
  apply (diff_stat_plain_count false "" " setup.py " 12 "++++++------" []
           (initial_state "/")).
  - reflexivity.
  - reflexivity.
  - split; [lia|].
    apply Z.lt_le_trans with (10 ^ 2); [lia|].
    apply Z.pow_le_mono_r; [lia|]. vm_compute. discriminate.
Defined.

Lemma split_length (sep : ascii) (s : string) :
  length (Str.split sep None s) = S (count_char sep s).
Proof.
  induction s as [|c s IH]; [reflexivity|].
  cbn [Str.split count_char]. rewrite (Ascii.eqb_sym c sep), andb_true_r.
  destruct (Ascii.eqb sep c).
  - cbn [length]. now rewrite IH.
  - destruct (Str.split sep None s) as [|h t]; [discriminate|].
    cbn [length] in *. exact IH.
Qed.

(** X4: a line of the diff-stat listing is looked at only when it has
    exactly one bar: the summary line (no bar) and a line whose file name
    has a bar in it (two bars or more) are passed over, so such a file gets
    no entry. *)
Theorem diff_stat_line_ignored (debug : bool) (diff_output line : string)
  (d : Dict.t line_count) (st : state) :
  count_char "|" line <> 1%nat ->
  diff_stat_line debug diff_output line d st = (Ok d, st).
Proof.
  intros Hc. unfold diff_stat_line.
  destruct (negb (Str.contains "|" line)); [reflexivity|].
  pose proof (split_length "|" line) as L.
  destruct (Str.split "|" None line) as [|a [|b [|c l]]]; try reflexivity.
  cbn [length] in L. congruence.
Qed.

Lemma diff_stat_line_ignored_witness :
  diff_stat_line false "" " a|b.txt | 3 ++-" [("x", LcInt 1)]
    (initial_state "/")
  = (Ok [("x", LcInt 1)], initial_state "/")
  /\ diff_stat_line false "" " 2 files changed, 3 insertions(+)"
       [("x", LcInt 1)] (initial_state "/")
     = (Ok [("x", LcInt 1)], initial_state "/").
Proof.
  split; apply diff_stat_line_ignored; vm_compute; discriminate.
Defined.

(* ===================================================================== *)
(** ** Further properties of the status listing *)
(* ===================================================================== *)

Lemma split_without_sep_limit (sep : ascii) (maxsplit : option nat)
  (s : string) :
  Str.contains sep s = false -> Str.split sep maxsplit s = [s].
Proof.
  induction s as [|c s IH]; cbn [Str.contains Str.split]; intros H;
    [reflexivity|].
  apply orb_false_elim in H. destruct H as [Hc Hs].
  rewrite Ascii.eqb_sym, Hc. cbn [andb]. now rewrite (IH Hs).
Qed.

Lemma split_at_first_sep_limit (sep : ascii) (k : nat) (s t : string) :
  Str.contains sep s = false ->
  Str.split sep (Some (S k)) (s ++ String sep t)
  = s :: Str.split sep (Some k) t.
Proof.
  induction s as [|c s IH]; cbn [append Str.contains Str.split]; intros H.
  - now rewrite Ascii.eqb_refl.
  - apply orb_false_elim in H. destruct H as [Hc Hs].
    rewrite Ascii.eqb_sym, Hc. cbn [andb]. now rewrite (IH Hs).
Qed.

(** X5: a line of the short-status listing that has no space once
    stripped (an empty line, a lone status code) makes the list
    comprehension raise [ValueError], wherever the line stands in the
    listing and whatever the other lines are. *)
Theorem status_line_without_space_raises (show_untracked : bool)
  (diff_stat : Dict.t line_count) (lines : list string) :
  Exists (fun line => Str.contains " " (Str.strip line) = false) lines ->
  status_records show_untracked diff_stat (map status_fields lines)
  = Raise ValueError.
Proof.
  induction 1 as [line lines H|line lines H IH].
  - cbn [map status_records]. unfold status_fields at 1.
    now rewrite (split_without_sep_limit _ _ _ H).
  - cbn [map status_records]. rewrite IH.
    destruct (status_fields line) as [|a [|b [|c l]]]; reflexivity.
Qed.

Lemma status_line_without_space_raises_witness :
  status_records true [] (map status_fields [" M setup.py"; ""; "?? new.txt"])
  = Raise ValueError.
Proof.
  apply (status_line_without_space_raises true []
           [" M setup.py"; ""; "?? new.txt"]).
  apply Exists_cons_tl. apply Exists_cons_hd. reflexivity.
Defined.

(** X6: when the comprehension returns, no record carries the status
    ["??"] (untracked files are renamed to ["U"]); its records are as many
    as the lines it keeps, all of them when untracked files are shown and
    those whose status is not ["??"] otherwise, and their paths are the
    paths of the kept lines in the order of the listing. *)
Theorem status_records_untracked (show_untracked : bool)
  (diff_stat : Dict.t line_count) (items : list (list string))
  (records : list StatusRecord) :
  status_records show_untracked diff_stat items = Ok records ->
  let kept :=
    filter (fun item =>
              show_untracked || negb (String.eqb (status_of item) "??"))
      items in
  Forall (fun r => fst (fst r) <> "??") records
  /\ map (fun r => snd (fst r)) records
     = map (fun item => nth 1 item EmptyString) kept
  /\ (show_untracked = true -> length records = length items)
  /\ (show_untracked = false ->
      Forall (fun r => In [fst (fst r); snd (fst r)] items) records).
Proof.
  revert records.
  induction items as [|item items IH]; intros records H kept.
  - inversion H; subst. repeat split; try constructor; reflexivity.
  - destruct item as [|s [|p [|x l]]]; try discriminate.
    cbn [status_records] in H.
    destruct (status_records show_untracked diff_stat items) as [recs|e];
      [|discriminate].
    destruct (IH recs eq_refl) as (N & P & L & K).
    subst kept. cbn [filter status_of hd].
    destruct (show_untracked || negb (String.eqb s "??")) eqn:E.
    + inversion H; subst records; clear H. repeat split.
      * constructor; [|exact N]. cbn [fst].
        destruct (String.eqb s "??") eqn:Es; [discriminate|].
        now apply String.eqb_neq.
      * cbn [map fst snd nth]. now rewrite P.
      * intros Hu. cbn [length]. now rewrite (L Hu).
      * intros Hu. rewrite Hu in E. cbn [orb] in E.
        apply negb_true_iff in E. constructor.
        -- cbn [fst snd]. rewrite E. now left.
        -- eapply Forall_impl; [|exact (K Hu)].
           intros r Hr. now right.
    + inversion H; subst records; clear H. repeat split.
      * exact N.
      * exact P.
      * intros Hu. rewrite Hu in E. discriminate.
      * intros Hu. eapply Forall_impl; [|exact (K Hu)].
        intros r Hr. now right.
Qed.

Lemma status_records_untracked_witness :
  Forall (fun r => fst (fst r) <> "??")
    [("M", "setup.py", LcInt 0)]
  /\ length [("M", "setup.py", LcInt 0)] = 1%nat.
Proof.
  destruct (status_records_untracked false []
              (map status_fields [" M setup.py"; "?? new.txt"])
              [("M", "setup.py", LcInt 0)] eq_refl) as (N & _).
  split; [exact N|reflexivity].
Defined.

(* ===================================================================== *)
(** ** Further properties of the diff parser *)
(* ===================================================================== *)

(** X7: a file section sets the entry list of its file to the entries of
    its own lines, whatever the mapping held and whichever file was
    current, and the loop goes on with this file as the current one.  So a
    file named by two headers keeps the entries of the later section only,
    at the place of its first header. *)
Theorem git_diff_loop_section (s : diff_section) (rest : list string)
  (d : Dict.t (list DiffEntry)) (current_file : option string) :
  section_ok s ->
  git_diff_loop (section_lines s ++ rest) d current_file
  = git_diff_loop rest
      (Dict.set (sec_file s) (section_entries (sec_body s)) d)
      (Some (sec_file s)).
Proof.
  intros (Hh & Hf & Hb). unfold section_lines.
  cbn [app git_diff_loop]. unfold is_header in Hh. rewrite Hh.
  unfold header_file in Hf. rewrite Hf.
  rewrite (git_diff_loop_body _ Hb rest _ _ [] (dict_get_set_same _ _ _)).
  now rewrite dict_set_set.
Qed.

Lemma git_diff_loop_section_witness :
  git_diff_loop
    ["diff --git a/x b/x"; "@@ -1 +1 @@"; "- one";
     "diff --git a/y b/y"; "+ two";
     "diff --git a/x b/x"; "+ three"] [] None
  = Ok [("a/x", [("+", "three")]); ("a/y", [("+", "two")])].
Proof.
  assert (B : forall l, is_header l = false ->
                        Str.contains " " l = true -> body_line l).
  { intros l H1 H2. split; [exact H1|intros _; exact H2]. }
  etransitivity.
  - apply (git_diff_loop_section
             (mkSection "diff --git a/x b/x" "a/x" ["@@ -1 +1 @@"; "- one"])
             ["diff --git a/y b/y"; "+ two"; "diff --git a/x b/x"; "+ three"]
             [] None).
    repeat split; repeat constructor; apply B; reflexivity.
  - etransitivity.
    + apply (git_diff_loop_section
               (mkSection "diff --git a/y b/y" "a/y" ["+ two"])
               ["diff --git a/x b/x"; "+ three"]).
      repeat split; repeat constructor; apply B; reflexivity.
    + etransitivity.
      * apply (git_diff_loop_section
                 (mkSection "diff --git a/x b/x" "a/x" ["+ three"]) []).
        repeat split; repeat constructor; apply B; reflexivity.
      * reflexivity.
Defined.

(** X8: two lines end the loop with [IndexError]: a file header with
    nothing after ["diff --git"] but text without a space (the header has
    fewer than three fields), and, inside a file section, a line that
    starts with ["@@"] and has no space (there is no text after the
    marker). *)
Theorem git_diff_loop_index_error (line : string) (rest : list string)
  (d : Dict.t (list DiffEntry)) :
  (forall t current_file,
      line = "diff --git" ++ t -> Str.contains " " t = false ->
      git_diff_loop (line :: rest) d current_file = Raise IndexError)
  /\ (forall f entries,
         Str.startswith "@@" line = true -> Str.contains " " line = false ->
         Dict.get f d = Some entries ->
         git_diff_loop (line :: rest) d (Some f) = Raise IndexError).
Proof.
  split.
  - intros t cur -> Ht. cbn [git_diff_loop].
    assert (Hs : Str.startswith "diff --git" ("diff --git" ++ t) = true).
    { cbn [append Str.startswith]. now rewrite !Ascii.eqb_refl. }
    rewrite Hs.
    change ("diff --git" ++ t) with ("diff" ++ String " " ("--git" ++ t)).
    assert (Hsplit : Str.split " " (Some 3%nat)
                       ("diff" ++ String " " ("--git" ++ t))
                     = ["diff"; "--git" ++ t]).
    { rewrite split_at_first_sep_limit by reflexivity.
      rewrite split_without_sep_limit; [reflexivity|].
      rewrite contains_app, Ht. reflexivity. }
    now rewrite Hsplit.
  - intros f entries Hat Hsp Hg. cbn [git_diff_loop].
    assert (Hm : diff_marker line = Some "@")
      by (unfold diff_marker; now rewrite Hat).
    pose proof (marker_not_header _ _ Hm) as Hh. unfold is_header in Hh.
    rewrite Hh, Hm. unfold diff_append.
    now rewrite Hg, (split_without_sep_limit _ _ _ Hsp).
Qed.

Lemma git_diff_loop_index_error_witness :
  git_diff_loop ["diff --git"; "+ x"] [] None = Raise IndexError
  /\ git_diff_loop ["diff --git a/x b/x"; "@@"; "+ x"] [] None
     = Raise IndexError.
Proof.
  split.
  - apply (proj1 (git_diff_loop_index_error "diff --git" ["+ x"] [])
             "" None); reflexivity.
  - change (git_diff_loop ["@@"; "+ x"] [("a/x", [])] (Some "a/x")
            = Raise IndexError).
    apply (proj2 (git_diff_loop_index_error "@@" ["+ x"] [("a/x", [])])
             "a/x" []); reflexivity.
Defined.

Lemma rstrip_idempotent (s : string) : Str.rstrip (Str.rstrip s) = Str.rstrip s.
Proof.
  induction s as [|c s IH]; [reflexivity|].
  cbn [Str.rstrip].
  destruct (Str.isspace c && Str.isempty (Str.rstrip s)) eqn:E; [reflexivity|].
  cbn [Str.rstrip]. now rewrite IH, E.
Qed.

Lemma strip_idempotent (s : string) : Str.strip (Str.strip s) = Str.strip s.
Proof.
  unfold Str.strip.
  assert (L : Str.lstrip s = EmptyString
              \/ exists c t, Str.lstrip s = String c t /\ Str.isspace c = false).
  { induction s as [|c s IH]; [now left|].
    cbn [Str.lstrip]. destruct (Str.isspace c) eqn:E; [exact IH|].
    right. now exists c, s. }
  destruct L as [L|(c & t & L & Hc)]; rewrite L; [reflexivity|].
  cbn [Str.rstrip]. rewrite Hc. cbn [andb Str.lstrip]. rewrite Hc.
  cbn [Str.rstrip]. now rewrite Hc, rstrip_idempotent.
Qed.

Lemma dict_get_in {V : Type} (k : string) (v : V) (d : Dict.t V) :
  Dict.get k d = Some v -> In (k, v) d.
Proof.
  induction d as [|[k' v'] d IH]; cbn [Dict.get]; [discriminate|].
  destruct (String.eqb k k') eqn:E.
  - intros H. apply String.eqb_eq in E. inversion H. subst. now left.
  - intros H. right. now apply IH.
Qed.

Lemma dict_set_in {V : Type} (k k' : string) (v v' : V) (d : Dict.t V) :
  In (k', v') (Dict.set k v d) -> (k', v') = (k, v) \/ In (k', v') d.
Proof.
  induction d as [|[k2 v2] d IH]; cbn [Dict.set].
  - intros [H|[]]. now left.
  - destruct (String.eqb k k2).
    + intros [H|H]; [now left|right; now right].
    + intros [H|H]; [right; now left|].
      destruct (IH H) as [H'|H']; [now left|right; now right].
Qed.

(** X9: the diff parser keeps its mapping well formed: whatever the text
    of [git diff], every entry of a mapping it returns has the marker
    ['@'], ['+'] or ['-'] and a text without white space at either end. *)
Theorem git_diff_entries_ok (lines : list string) :
  forall (d : Dict.t (list DiffEntry)) (current_file : option string)
         (d' : Dict.t (list DiffEntry)),
    (forall f es, In (f, es) d -> Forall entry_ok es) ->
    git_diff_loop lines d current_file = Ok d' ->
    forall f es, In (f, es) d' -> Forall entry_ok es.
Proof.
  induction lines as [|line lines IH]; intros d cur d' Hd H.
  - inversion H; subst. exact Hd.
  - cbn [git_diff_loop] in H.
    destruct (Str.startswith "diff --git" line).
    + destruct (nth_error (Str.split " " (Some 3%nat) line) 2) as [f0|];
        [|discriminate].
      apply (IH _ _ _) with (2 := H).
      intros f es Hin. apply dict_set_in in Hin.
      destruct Hin as [E|Hin]; [inversion E; constructor|now apply (Hd f)].
    + destruct (diff_marker line) as [m|] eqn:Em;
        [|now apply (IH _ _ _ Hd H)].
      unfold diff_append in H.
      destruct cur as [f0|]; [|discriminate].
      destruct (Dict.get f0 d) as [entries|] eqn:Eg; [|discriminate].
      destruct (nth_error (Str.split " " (Some 1%nat) line) 1) as [r|];
        [|discriminate].
      apply (IH _ _ _) with (2 := H).
      intros f es Hin. apply dict_set_in in Hin.
      destruct Hin as [E|Hin]; [|now apply (Hd f)].
      inversion E; subst. apply Forall_app. split.
      * apply (Hd f0). now apply dict_get_in.
      * constructor; [|constructor]. split; [|apply strip_idempotent].
        cbn [fst]. unfold diff_marker in Em.
        destruct (Str.startswith "@@" line);
          [inversion Em; now left|].
        destruct (Str.startswith "+ " line);
          [inversion Em; right; now left|].
        destruct (Str.startswith "- " line);
          [inversion Em; right; now right|discriminate].
Qed.

Lemma git_diff_entries_ok_witness :
  Forall entry_ok [("@", "-1 +1 @@ def f():"); ("-", "return 1"); ("+", "return 2")].
Proof.
  apply (git_diff_entries_ok
           ["diff --git a/m.py b/m.py"; "@@ -1 +1 @@ def f():";
            "-     return 1  "; "+     return 2  "]
           [] None
           [("a/m.py", [("@", "-1 +1 @@ def f():"); ("-", "return 1");
                        ("+", "return 2")])])
    with (f := "a/m.py").
  - intros f es [].
  - reflexivity.
  - left. reflexivity.
Defined.

(* ===================================================================== *)
(** ** Memoization and the current directory *)
(* ===================================================================== *)









Lemma path_join_absolute_r (a b : string) :
  Str.startswith "/" b = true -> path_join a b = b.
Proof. intros H. unfold path_join. now rewrite H. Qed.

Lemma startswith_app (p a b : string) :
  Str.startswith p a = true -> Str.startswith p (a ++ b) = true.
Proof.
  revert a. induction p as [|c p IH]; intros a; [reflexivity|].
  destruct a as [|x a]; cbn [Str.startswith append]; [discriminate|].
  intros H. apply andb_true_iff in H. destruct H as [H1 H2].
  now rewrite H1, (IH _ H2).
Qed.

Lemma path_join_absolute_l (a b : string) :
  Str.startswith "/" a = true -> Str.startswith "/" (path_join a b) = true.
Proof.
  intros H. unfold path_join.
  destruct (Str.startswith "/" b) eqn:E; [exact E|].
  destruct (Str.isempty a || Str.endswith "/" a); now apply startswith_app.
Qed.

Lemma try_finally_chdir_cwd {A : Type} (w : world) (body : M A)
  (old : string) (st : state) :
  Str.startswith "/" old = true ->
  isdir w old = true ->
  cwd (snd (try_finally body (os_chdir w old) st)) = old.
Proof.
  intros Ha Hd. unfold try_finally. destruct (body st) as [r st1].
  unfold os_chdir. rewrite (path_join_absolute_r _ _ Ha), Hd.
  destruct r; reflexivity.
Qed.

Lemma git_diff_body_cwd (w : world) (repo_path : string) (st : state) :
  Str.startswith "/" (cwd st) = true ->
  isdir w (cwd st) = true ->
  cwd (snd (git_diff_body w repo_path st)) = cwd st.
Proof.
  intros Ha Hd. unfold git_diff_body.
  unfold bind at 1. unfold os_getcwd. unfold bind at 1. unfold os_chdir at 1.
  destruct (isdir w (path_join (cwd st) repo_path)); [|reflexivity].
  now apply try_finally_chdir_cwd.
Qed.

Lemma git_status_files_body_cwd (w : world) (repo_path : string)
  (show_untracked debug : bool) (st : state) :
  Str.startswith "/" (cwd st) = true ->
  isdir w (cwd st) = true ->
  cwd (snd (git_status_files_body w repo_path show_untracked debug st))
  = cwd st.
Proof.
  intros Ha Hd. unfold git_status_files_body.
  unfold bind at 1. unfold os_getcwd. unfold bind at 1. unfold os_chdir at 1.
  destruct (isdir w (path_join (cwd st) repo_path)); [|reflexivity].
  unfold bind at 1.
  match goal with
  | |- context [try_finally ?b ?f ?s] =>
      pose proof (try_finally_chdir_cwd w b (cwd st) s Ha Hd) as C;
        destruct (try_finally b f s) as [[r|e] st3]
  end; cbn [snd] in C; [|exact C].
  destruct (negb (returncode (fst r) =? 0)); exact C.
Qed.

(** X11: the status query and the diff query give the process back in the
    directory they found it in, whether they return or raise and whether
    the answer comes from git or from the table: the current directory,
    an absolute path of an existing directory, is the same after the
    call. *)
Theorem queries_restore_cwd (w : world) (repo_path : string)
  (show_untracked debug : bool) (st : state) :
  Str.startswith "/" (cwd st) = true ->
  isdir w (cwd st) = true ->
  cwd (snd (git_status_files w repo_path show_untracked debug st)) = cwd st
  /\ cwd (snd (git_diff w repo_path st)) = cwd st.
Proof.
  intros Ha Hd. split.
  - unfold git_status_files, Lru.cached.
    destruct (Lru.find _ _ _); [reflexivity|].
    pose proof (git_status_files_body_cwd w repo_path show_untracked debug
                  st Ha Hd) as C.
    destruct (git_status_files_body w repo_path show_untracked debug st)
      as [[v|e] st']; exact C.
  - unfold git_diff, Lru.cached.
    destruct (Lru.find _ _ _); [reflexivity|].
    pose proof (git_diff_body_cwd w repo_path st Ha Hd) as C.
    destruct (git_diff_body w repo_path st) as [[v|e] st']; exact C.
Qed.

Lemma queries_restore_cwd_witness :
  cwd (snd (git_status_files headless_world "/wd/a" true false
              (initial_state "/wd"))) = "/wd"
  /\ cwd (snd (git_diff headless_world "/wd/a" (initial_state "/wd"))) = "/wd".
Proof.
  apply (queries_restore_cwd headless_world "/wd/a" true false
           (initial_state "/wd")); reflexivity.
Defined.

Lemma git_command_run (w : world) (argv : list string)
  (word repo_path : string) (st : state) :
  Str.startswith "/" repo_path = true ->
  isdir w repo_path = true ->
  git_command w argv word repo_path st
  = (Ok (returncode (run w repo_path argv) =? 0),
     mkState repo_path (verbosity st)
       (console st
          ++ Run repo_path argv
             :: (if returncode (run w repo_path argv) =? 0 then []
                 else [Print [Lit ("git " ++ word ++ " failed for "
                                     ++ repo_path)]]))
       (status_cache st) (diff_cache st) (remotes_cache st)).
Proof.
  intros Ha Hd. unfold git_command, bind, os_chdir.
  rewrite (path_join_absolute_r _ _ Ha), Hd.
  unfold subprocess_run, bind, emit, ret, print, emit. state_simpl.
  destruct (returncode (run w repo_path argv) =? 0); cbn [negb];
    state_simpl; [reflexivity|].
  now rewrite <- app_assoc.
Qed.

Lemma last_cons {A : Type} (x d : A) (l : list A) :
  last (x :: l) d = last l x.
Proof.
  revert x d. induction l as [|y l IH]; intros x d; [reflexivity|].
  change (last (y :: l) d = last (y :: l) x). now rewrite !IH.
Qed.

Lemma action_command_trace (w : world) (announce word : string)
  (argv : list string) (ns : Namespace) (repos : list string) :
  Str.startswith "/" (ns_working_dir ns) = true ->
  (forall repo, In repo repos ->
                isdir w (path_join (ns_working_dir ns) repo) = true) ->
  forall st,
    action_command announce (git_command w argv word) ns repos st
    = (Ok tt,
       mkState (last (map (path_join (ns_working_dir ns)) repos) (cwd st))
         (verbosity st)
         (console st
            ++ flat_map (command_trace w announce word argv
                           (ns_working_dir ns)) repos)
         (status_cache st) (diff_cache st) (remotes_cache st)).
Proof.
  intros Ha. unfold action_command.
  induction repos as [|repo repos IH]; intros Hd st.
  - cbn [for_each map last flat_map]. rewrite app_nil_r.
    destruct st; reflexivity.
  - cbn [for_each]. unfold bind at 1. unfold bind at 1.
    unfold print, emit. unfold bind at 1.
    rewrite git_command_run;
      [|now apply path_join_absolute_l|apply Hd; now left].
    unfold ret at 1.
    rewrite IH by (intros r Hr; apply Hd; now right).
    state_simpl. cbn [map flat_map]. rewrite last_cons.
    unfold command_trace at 2. cbn [app].
    now rewrite <- !app_assoc.
Qed.

(** X12: [reset], [pull] and [push] go through every repository, in
    order, also after a repository where git fails: for an absolute
    working directory whose repositories exist, the action returns, and the
    console gets, per repository, the announcement, one git command run in
    the directory of the repository and, when git exits non-zero, the
    failure message.  The process is left in the directory of the last
    repository. *)
Theorem commands_run_everywhere (w : world) (ns : Namespace)
  (repos : list string) (st : state) :
  Str.startswith "/" (ns_working_dir ns) = true ->
  (forall repo, In repo repos ->
                isdir w (path_join (ns_working_dir ns) repo) = true) ->
  let final := fun announce word argv =>
    (Ok tt,
     mkState (last (map (path_join (ns_working_dir ns)) repos) (cwd st))
       (verbosity st)
       (console st
          ++ flat_map (command_trace w announce word argv (ns_working_dir ns))
               repos)
       (status_cache st) (diff_cache st) (remotes_cache st)) in
  action_command "Resetting" (git_reset w) ns repos st
  = final "Resetting" "reset" ["git"; "reset"; "--hard"; "HEAD"]
  /\ action_command "Pulling" (git_pull w) ns repos st
     = final "Pulling" "pull" ["git"; "pull"]
  /\ action_command "Pushing" (git_push w) ns repos st
     = final "Pushing" "push" ["git"; "push"].
Proof.
  intros Ha Hd final. repeat split; now apply action_command_trace.
Qed.

Lemma commands_run_everywhere_witness :
  action_command "Pulling" (git_pull demo_world)
    (ns_both "pull") ["b"; "a"] (initial_state "/wd")
  = (Ok tt,
     mkState "/wd/a" 0
       [Print [Lit "Pulling Repo: b"]; Run "/wd/b" ["git"; "pull"];
        Print [Lit "git pull failed for /wd/b"];
        Print [Lit "Pulling Repo: a"]; Run "/wd/a" ["git"; "pull"]]
       [] [] []).
Proof.
  apply (proj1 (proj2 (commands_run_everywhere demo_world (ns_both "pull")
                         ["b"; "a"] (initial_state "/wd") eq_refl
                         (fun repo H =>
                            match H with
                            | or_introl E =>
                                eq_ind "b"
                                  (fun r => isdir demo_world
                                              (path_join "/wd" r) = true)
                                  eq_refl repo E
                            | or_intror (or_introl E) =>
                                eq_ind "a"
                                  (fun r => isdir demo_world
                                              (path_join "/wd" r) = true)
                                  eq_refl repo E
                            | or_intror (or_intror F) => match F with end
                            end)))).
Defined.

(* ===================================================================== *)
(** ** Further properties of [main] *)
(* ===================================================================== *)

(** X13: the [branch] sub-command, which the parser accepts, and a command
    line without a sub-command are not implemented: with an explicit list
    of repositories and neither [-C] nor [-n], [main] raises
    [NotImplementedError] after it has changed into the working directory;
    nothing is printed and no git command is run. *)
Theorem main_unimplemented_action (w : world) (ns : Namespace) (r : string)
  (rs : list string) (st : state) :
  let root := path_join (cwd st) (ns_working_dir ns) in
  isdir w root = true ->
  ns_repo ns = Some (r :: rs) ->
  ns_next ns = false ->
  ns_changed ns = false ->
  ns_action ns = None \/ ns_action ns = Some "branch" ->
  main w ns st
  = (Raise NotImplementedError,
     mkState root (ns_verbosity ns) (console st)
       (status_cache st) (diff_cache st) (remotes_cache st)).
Proof.
  intros root Ht Hr Hn Hc Ha.
  unfold main, bind, VerbosityLogger_setVerbosity, os_chdir,
    load_rack_config, bind, os_path_exists, ret.
  state_simpl. fold root. rewrite Ht, Hn. cbn [andb]. state_simpl.
  unfold select_repos. rewrite Hr, Hc. unfold ret.
  destruct (negb (exists_ w (path_join root
                               (path_join (ns_working_dir ns) ".rack.yaml"))));
    destruct Ha as [-> | ->]; reflexivity.
Qed.

Lemma main_unimplemented_action_witness :
  main demo_world ns_branch (initial_state "/")
  = (Raise NotImplementedError, mkState "/wd" 0 [] [] [] []).
Proof.
  apply (main_unimplemented_action demo_world ns_branch "a" ["b"]
           (initial_state "/")); try reflexivity.
  right. reflexivity.
Defined.

Lemma main_next_and_repo_witness :
  main demo_world ns_next_repo (initial_state "/")
  = (Ok (Some 1),
     mkState "/wd" 2 [Print [Lit "Cannot specify both --next and --repo"]]
       [] [] []).
Proof.
  apply (main_next_and_repo demo_world ns_next_repo "a" []
           (initial_state "/")); reflexivity.
Defined.

(** X15: [main] changes into the working directory and then lists it by
    the name it was given.  When that name does not lead from the working
    directory to a directory (a relative name such as [wd], which now
    stands for [wd/wd]) and no repository is named on the command line,
    [main] raises [OSError] before any repository is looked at. *)
Theorem main_lists_working_dir_again (w : world) (ns : Namespace)
  (st : state) :
  let root := path_join (cwd st) (ns_working_dir ns) in
  isdir w root = true ->
  ns_repo ns = None ->
  exists_ w (path_join root (path_join (ns_working_dir ns) ".rack.yaml"))
  = false ->
  isdir w (path_join root (ns_working_dir ns)) = false ->
  main w ns st
  = (Raise OSError,
     mkState root (ns_verbosity ns) (console st)
       (status_cache st) (diff_cache st) (remotes_cache st)).
Proof.
  intros root Ht Hr He Hn.
  unfold main, bind, VerbosityLogger_setVerbosity, os_chdir,
    load_rack_config, bind, os_path_exists, ret.
  state_simpl. fold root. rewrite Ht, Hr. state_simpl.
  rewrite He. cbn [negb]. rewrite andb_false_r. state_simpl.
  unfold select_repos. rewrite Hr. cbn [Dict.get].
  unfold bind, os_listdir. state_simpl. now rewrite Hn.
Qed.

Lemma main_lists_working_dir_again_witness :
  main demo_world ns_relative (initial_state "/")
  = (Raise OSError, mkState "/wd" 0 [] [] [] []).
Proof.
  apply (main_lists_working_dir_again demo_world ns_relative
           (initial_state "/")); reflexivity.
Defined.

(** X16: [--next] never widens the selection: the step returns the list it
    was given or a single repository of that list; and when the
    environment has no [HOME] and there is a repository to look at, it
    raises [KeyError] without running git. *)
Theorem next_repo_choice (w : world) (ns : Namespace)
  (pending repos : list string) :
  (forall st chosen st',
      next_repo w ns pending repos st = (Ok chosen, st') ->
      chosen = repos \/ exists repo, In repo pending /\ chosen = [repo])
  /\ (forall st,
         environ_HOME w = None -> pending <> [] ->
         next_repo w ns pending repos st = (Raise KeyError, st)).
Proof.
  split.
  - induction pending as [|repo pending IH]; intros st chosen st' H.
    + inversion H. now left.
    + cbn [next_repo] in H. destruct (environ_HOME w) as [home|];
        [|discriminate].
      unfold bind in H.
      destruct (git_status_files w _ _ _ st) as [[files|e] st1];
        [|discriminate].
      destruct (truthy files).
      * inversion H. right. exists repo. split; [now left|reflexivity].
      * destruct (IH _ _ _ H) as [E|(x & Hx & E)]; [now left|].
        right. exists x. split; [now right|exact E].
  - intros st Hh Hp. destruct pending as [|repo pending]; [contradiction|].
    cbn [next_repo]. now rewrite Hh.
Qed.

Lemma next_repo_choice_witness :
  (["a"] = ["b"; "a"] \/ exists repo, In repo ["b"; "a"] /\ ["a"] = [repo])
  /\ next_repo homeless_world (plain_ns "status") ["b"; "a"] ["b"; "a"]
       (initial_state "/")
     = (Raise KeyError, initial_state "/").
Proof.
  split.
  - apply (proj1 (next_repo_choice home_world (plain_ns "status")
                    ["b"; "a"] ["b"; "a"])
             (initial_state "/") ["a"]
             (snd (next_repo home_world (plain_ns "status") ["b"; "a"]
                     ["b"; "a"] (initial_state "/")))).
    vm_compute. reflexivity.
  - apply (proj2 (next_repo_choice homeless_world (plain_ns "status")
                    ["b"; "a"] ["b"; "a"])).
    + reflexivity.
    + discriminate.
Defined.

(** X17: [-C] only drops repositories: the list it returns is the list it
    was given with some elements left out, the others in their order. *)
Theorem changed_repos_mask (w : world) (ns : Namespace)
  (repos : list string) :
  forall st kept st',
    changed_repos w ns repos st = (Ok kept, st') ->
    exists keep : list bool,
      length keep = length repos
      /\ kept = map fst (filter snd (combine repos keep)).
Proof.
  induction repos as [|repo repos IH]; intros st kept st' H.
  - inversion H. now exists [].
  - cbn [changed_repos] in H. unfold bind in H.
    destruct (git_status_files w _ _ _ st) as [[files|e] st1];
      [|discriminate].
    destruct (changed_repos w ns repos st1) as [[kept'|e] st2] eqn:E;
      [|discriminate].
    destruct (IH _ _ _ E) as (keep & L & K).
    inversion H; subst. exists (truthy files :: keep).
    split; [cbn [length]; now rewrite L|].
    cbn [combine filter snd]. destruct (truthy files); reflexivity.
Qed.

Lemma changed_repos_mask_witness :
  exists keep : list bool,
    length keep = 2%nat
    /\ ["a"] = map fst (filter snd (combine ["b"; "a"] keep)).
Proof.
  apply (changed_repos_mask demo_world (plain_ns "status") ["b"; "a"]
           (initial_state "/wd") ["a"]
           (snd (changed_repos demo_world (plain_ns "status") ["b"; "a"]
                   (initial_state "/wd")))).
  vm_compute. reflexivity.
Defined.

(** X18: when the rows of the [list] table are built, there is one row per
    directory, in order; the folder column of a row holds the name of its
    directory, and the styles alternate, ["row-even"] for the rows of even
    index. *)
Theorem table_rows_shape (w : world) (ns : Namespace) (columns : list string)
  (directories : list string) :
  nth_error columns 1 = Some "folder" ->
  forall i st rows st',
    table_rows w ns columns i directories st = (Ok rows, st') ->
    map (fun row => nth 1 (fst row) EmptyString) rows = directories
    /\ map snd rows
       = map (fun k => if Nat.even k then "row-even" else "row-odd")
           (seq i (length directories)).
Proof.
  intros Hc.
  induction directories as [|directory directories IH];
    intros i st rows st' H.
  - inversion H. split; reflexivity.
  - cbn [table_rows] in H. unfold bind at 1 in H.
    match type of H with
    | match ?m st with _ => _ end = _ =>
        destruct (m st) as [[row1|e] st1] eqn:E1; [|discriminate]
    end.
    unfold bind at 1 in H.
    match type of H with
    | match ?m st1 with _ => _ end = _ =>
        destruct (m st1) as [[row2|e] st2] eqn:E2; [|discriminate]
    end.
    unfold bind at 1 in H.
    destruct (table_rows w ns columns (S i) directories st2)
      as [[rows'|e] st3] eqn:E3; [|discriminate].
    destruct (IH _ _ _ _ E3) as (F & S).
    inversion H; subst rows st'; clear H.
    cbn [map fst snd length seq]. rewrite F, S. split; [|reflexivity].
    f_equal.
    assert (G : Dict.get "folder" row2 = Some directory).
    { destruct (ns_status ns).
      - unfold bind in E2.
        destruct (git_status_files w _ _ _ st1) as [[files|e] s];
          [|discriminate].
        inversion E2. apply dict_get_set_same.
      - inversion E2. apply dict_get_set_same. }
    destruct columns as [|c0 [|c1 cs]]; try discriminate.
    inversion Hc; subst c1. cbn [map nth]. now rewrite G.
Qed.

Lemma table_rows_shape_witness :
  map (fun row => nth 1 (fst row) EmptyString)
    [([""; "a"], "row-even"); ([""; "b"], "row-odd")] = ["a"; "b"]
  /\ map snd [([""; "a"], "row-even"); ([""; "b"], "row-odd")]
     = ["row-even"; "row-odd"].
Proof.
  apply (table_rows_shape demo_world (plain_ns "list") ["changes"; "folder"]
           ["a"; "b"] eq_refl 0%nat (initial_state "/wd")
           [([""; "a"], "row-even"); ([""; "b"], "row-odd")]
           (initial_state "/wd")).
  reflexivity.
Defined.

Lemma status_records_no_nan (show_untracked : bool)
  (diff_stat : Dict.t line_count) (items : list (list string)) :
  Forall (fun kv => snd kv <> LcNaN) diff_stat ->
  forall records,
    status_records show_untracked diff_stat items = Ok records ->
    Forall (fun r => snd r <> LcNaN) records.
Proof.
  intros Hd. induction items as [|item items IH]; intros records H.
  - inversion H. constructor.
  - destruct item as [|s [|p [|x l]]]; try discriminate.
    cbn [status_records] in H.
    destruct (status_records show_untracked diff_stat items) as [recs|e];
      [|discriminate].
    destruct (show_untracked || negb (String.eqb s "??"));
      inversion H; subst; [|now apply IH].
    constructor; [|now apply IH]. cbn [snd].
    destruct (Dict.get p diff_stat) as [lc|] eqn:E; [|discriminate].
    apply dict_get_in in E. rewrite Forall_forall in Hd.
    exact (Hd _ E).
Qed.

Lemma parse_diff_stat_result (debug : bool) (p : CompletedProcess)
  (s : state) :
  exists r,
    parse_diff_stat debug p s = (r, s)
    /\ match r with
       | Ok d => Forall (fun kv => snd kv <> LcNaN) d
       | Raise e => e = TypeError
       end.
Proof.
  unfold parse_diff_stat. destruct (returncode p =? 0).
  - destruct (diff_stat_loop_outcome debug (stdout p)
                (Str.splitlines (stdout p)) [] s (Forall_nil _))
      as [E|(d & E & F)]; rewrite E; eexists; split; try reflexivity.
    exact F.
  - eexists. split; [reflexivity|constructor].
Qed.

(** What the [try] block of the status query hands to the rest of the
    function. *)
Lemma status_try_block (w : world) (debug : bool) (s : state) :
  let block :=
    (result <- subprocess_run w ["git"; "status"; "--porcelain"] ;;
     diff_stat_out <- subprocess_run w ["git"; "diff"; "--stat"] ;;
     diff_stat <- parse_diff_stat debug diff_stat_out ;;
     ret (result, diff_stat)) in
  (exists e, fst (block s) = Raise e)
  \/ exists result ds,
       fst (block s) = Ok (result, ds)
       /\ Forall (fun kv => snd kv <> LcNaN) ds.
Proof.
  intros block. unfold block, bind, subprocess_run, bind, emit, ret.
  state_simpl.
  match goal with
  | |- context [parse_diff_stat ?g ?p ?s0] =>
      destruct (parse_diff_stat_result g p s0) as ([d|e] & E & F);
        rewrite E
  end.
  - right. do 2 eexists. split; [reflexivity|exact F].
  - left. eexists. reflexivity.
Qed.

(** X19: the status query never reports the NaN sentinel: whenever it
    returns, from whatever git printed, the change count of every record is
    an integer. *)
Theorem status_query_never_nan (w : world) (repo_path : string)
  (show_untracked debug : bool) (st st' : state)
  (records : list StatusRecord) :
  git_status_files_body w repo_path show_untracked debug st
  = (Ok records, st') ->
  Forall (fun r => exists z, snd r = LcInt z) records.
Proof.
  intros H.
  assert (N : Forall (fun r => snd r <> LcNaN) records).
  { unfold git_status_files_body in H.
    unfold bind at 1 in H. unfold os_getcwd in H.
    unfold bind at 1 in H. unfold os_chdir at 1 in H.
    destruct (isdir w (path_join (cwd st) repo_path)); [|discriminate].
    unfold bind at 1 in H. unfold try_finally in H.
    unfold bind at 1 in H. unfold msgout_v, msgout in H.
    match type of H with
    | context [if ?c then print ?t ?s else (Ok tt, ?s)] =>
        assert (E : exists s1, (if c then print t s else (Ok tt, s))
                               = (Ok tt, s1))
          by (destruct c; eexists; reflexivity);
          destruct E as [s1 E]; rewrite E in H
    end.
    destruct (status_try_block w debug s1) as [(e & P)|(result & ds & P & F)];
      cbv zeta in P;
      match type of P with
      | fst (?blk s1) = _ => destruct (blk s1) as [r st3]
      end; cbn [fst] in P; subst r;
      destruct (os_chdir w (cwd st) st3) as [[u|e'] st4]; try discriminate.
    cbn [fst snd] in H.
    destruct (negb (returncode result =? 0)).
    - inversion H. constructor.
    - unfold lift in H. inversion H as [[H1 H2]].
      exact (status_records_no_nan _ _ _ F _ H1). }
  eapply Forall_impl; [|exact N].
  intros r Hr. cbn beta in Hr.
  destruct (snd r) as [z|] eqn:E; [now exists z|now elim Hr].
Qed.

Lemma status_query_never_nan_witness :
  Forall (fun r : StatusRecord => exists z, snd r = LcInt z)
    [("M", "setup.py", LcInt 2); ("M", "logo.png", LcInt 100);
     ("U", "new.txt", LcInt 0)].
Proof.
  apply (status_query_never_nan demo_world "/wd/a" true false
           (initial_state "/")
           (snd (git_status_files_body demo_world "/wd/a" true false
                   (initial_state "/")))).
  vm_compute. reflexivity.
Defined.

(** With an absolute working directory the enumeration is the one the
    comment in [main] announces, whatever directory the process is in: the
    sub-directories of the working directory that have a [".git"] entry. *)
Lemma select_repos_absolute (w : world) (ns : Namespace)
  (config : Dict.t (list string)) (st : state) :
  Str.startswith "/" (ns_working_dir ns) = true ->
  isdir w (ns_working_dir ns) = true ->
  ns_repo ns = None \/ ns_repo ns = Some [] ->
  Dict.get "repos" config = None ->
  select_repos w ns (YMap config) st
  = (Ok (filter
           (fun repo =>
              isdir w (path_join (ns_working_dir ns) repo)
              && existsb (String.eqb ".git")
                   (listdir w (path_join (ns_working_dir ns) repo)))
           (listdir w (ns_working_dir ns))),
     st).
Proof.
  intros Ha Hd Hr Hc.
  pose proof (select_repos_from_cwd w ns config st) as S. cbv zeta in S.
  rewrite (path_join_absolute_r _ _ Ha) in S.
  destruct (S Hd) as (S1 & _). destruct (S1 Hr Hc) as (repos & E & F & _).
  rewrite E, F. f_equal. f_equal. apply filter_ext. intros repo.
  now rewrite (path_join_absolute_r _ _ (path_join_absolute_l _ repo Ha)).
Qed.
